(** * S3-manager: path resolution, catalog registry and storage facade

    A shallow embedding of [src/s3_manager.go] and [src/domain.go].

    - Go strings are byte sequences: [string] (a list of [ascii]).
    - [int64] and [time.Duration] values are [Z]; the code performs no
      arithmetic on them, so no wrap-around is involved.
    - [map[CatalogType]string] is a [gmap string string]; a nil map reads
      like the empty map, and [AddCatalog] allocates it before writing.
    - [*Config] is a location in a heap of [Config] objects, because
      [NewS3Manager] writes through the pointer and the manager keeps it.
    - The object-storage SDK is an external collaborator: every call to it
      is a node of a program tree, answered by a handler. *)

From stdpp Require Import base option strings pretty list gmap.
From Stdlib Require Import ZArith Ascii String.

Local Open Scope string_scope.
Local Open Scope list_scope.
Local Open Scope Z_scope.

(** ** The fragment of Go's [fmt] package that the code relies on

    [fmt.Sprintf] belongs to the Go standard library ([fmt/print.go],
    [fmt/format.go]). Modelled are the directives made of ['%'] and one
    ASCII verb, for [int64] and [string] operands, with the library's
    renderings of bad verbs, missing and extra operands. A directive with
    flags, width, precision or argument index, and the verbs that need
    other bases, quoting or Unicode tables, give [None]. *)

Module fmt.

(** Operands that the source passes to [fmt.Sprintf]. *)
Inductive arg : Type :=
  | Int64 (n : Z)
  | Str (s : string).

(** [reflect.TypeOf(arg).String()] *)
Definition typeString (a : arg) : string :=
  match a with
  | Int64 _ => "int64"
  | Str _ => "string"
  end.

(** [fmt.fmtInteger] in base 10 for a signed operand, no flags: the
    decimal digits, after a minus sign when negative. *)
Definition fmtInteger (n : Z) : string := pretty n.
Global Arguments fmtInteger : simpl never.

(** [printArg(arg, 'v')] with all flags cleared. *)
Definition fmtV (a : arg) : string :=
  match a with
  | Int64 n => fmtInteger n
  | Str s => s
  end.

(** [pp.badVerb]: [%!verb(type=value)]. *)
Definition badVerb (verb : ascii) (a : arg) : string :=
  "%!" +:+ String verb ("(" +:+ typeString a +:+ "=" +:+ fmtV a +:+ ")").

(** [pp.missingArg]: [%!verb(MISSING)]. *)
Definition missingArg (verb : ascii) : string :=
  "%!" +:+ String verb "(MISSING)".

(** [pp.printArg] for a directive without flags, width or precision.
    [None] marks the verbs whose rendering is not modelled (other bases,
    quoting and the Unicode verbs). *)
Definition printArg (a : arg) (verb : ascii) : option string :=
  match verb with
  | "T"%char => Some (typeString a)
  | "p"%char => Some (badVerb verb a)
  | _ =>
      match a with
      | Int64 n =>
          match verb with
          | "v"%char | "d"%char => Some (fmtInteger n)
          | "b"%char | "o"%char | "O"%char | "x"%char | "X"%char
          | "c"%char | "q"%char | "U"%char => None
          | _ => Some (badVerb verb a)
          end
      | Str s =>
          match verb with
          | "v"%char | "s"%char => Some s
          | "x"%char | "X"%char | "q"%char => None
          | _ => Some (badVerb verb a)
          end
      end
  end.

(** The bytes that, right after a ['%'], start a directive with flags,
    a width, a precision or an argument index, or a verb that is not
    ASCII. Such directives are outside the modelled fragment. *)
Definition complexDirective (c : ascii) : bool :=
  match c with
  | "#"%char | "0"%char | "+"%char | "-"%char | " "%char
  | "1"%char | "2"%char | "3"%char | "4"%char | "5"%char
  | "6"%char | "7"%char | "8"%char | "9"%char
  | "*"%char | "."%char | "["%char => true
  | Ascii _ _ _ _ _ _ _ b7 => b7
  end.

(** The tail of [doPrintf]: operands left over are reported. *)
Definition extraArgs (a : list arg) (argNum : nat) : string :=
  match drop argNum a with
  | [] => ""
  | x :: xs =>
      "%!(EXTRA "
      +:+ foldl (fun acc y => acc +:+ ", " +:+ typeString y +:+ "=" +:+ fmtV y)
            (typeString x +:+ "=" +:+ fmtV x) xs
      +:+ ")"
  end.

(** [pp.doPrintf], from position [format] with [argNum] operands
    consumed. The result is what is appended to the buffer. *)
Fixpoint doPrintf (format : string) (a : list arg) (argNum : nat)
  : option string :=
  match format with
  | EmptyString => Some (extraArgs a argNum)
  | String c rest =>
      if decide (c = "%"%char) then
        match rest with
        | EmptyString => Some ("%!(NOVERB)" +:+ extraArgs a argNum)
        | String verb rest' =>
            if complexDirective verb then None
            else if decide (verb = "%"%char) then
              String "%"%char <$> doPrintf rest' a argNum
            else
              match a !! argNum with
              | None =>
                  String.append (missingArg verb) <$> doPrintf rest' a argNum
              | Some x =>
                  s ← printArg x verb;
                  String.append s <$> doPrintf rest' a (S argNum)
              end
        end
      else String c <$> doPrintf rest a argNum
  end.

Definition Sprintf (format : string) (a : list arg) : option string :=
  doPrintf format a 0.

End fmt.

(** ** Data model ([src/domain.go]) *)

Abbreviation CatalogType := string (only parsing).

Definition PathCustomCatalog : CatalogType := "custom_catalog".

Module Config.
Record t : Type := mk {
  Endpoint : string;
  Region : string;
  AccessKey : string;
  SecretKey : string;
  Name : string;
  RootCatalog : string;
  CDN : string;
  PresignedURLExpireTime : Z
}.

(** [cfg.RootCatalog += suffix] *)
Definition appendRootCatalog (suffix : string) (c : t) : t :=
  mk (Endpoint c) (Region c) (AccessKey c) (SecretKey c) (Name c)
     (RootCatalog c +:+ suffix) (CDN c) (PresignedURLExpireTime c).
End Config.

Module StoragePath.
Record t : Type := mk {
  RootCatalog : string;
  CatalogType : CatalogType;
  EntityID : Z;
  CustomPath : string
}.

(** [storagePath.RootCatalog = root] on the method's own copy. *)
Definition setRootCatalog (root : string) (p : t) : t :=
  mk root (CatalogType p) (EntityID p) (CustomPath p).
End StoragePath.

(** [io.ReadSeeker]: the bytes the stream delivers. A nil interface value
    is [None] where the field is declared. *)
Definition ReadSeeker : Type := string.

Module BucketFile.
Record t : Type := mk {
  File : option ReadSeeker;
  Name : string
}.
End BucketFile.

(** Go [error] values, as the code builds them. *)
Inductive error : Type :=
  | SdkError (msg : string)
  | Errorf (msg : string)
  | ErrorfW (prefix : string) (err : error).

(** ** The object-storage SDK, as far as the code touches it *)

Module aws.
(** [aws.Config], opaque to this code. *)
Inductive Config : Type := LoadedConfig (handle : positive).
End aws.

Module types.
Record Object : Type := { ObjectKey : option string }.
Record ObjectIdentifier : Type := { Key : option string }.
Record Delete : Type := { Objects : list ObjectIdentifier; Quiet : bool }.
Definition ObjectCannedACL : Type := string.
Definition ObjectCannedACLPublicRead : ObjectCannedACL := "public-read".
End types.

Module s3.
Inductive Client : Type := NewFromConfig (cfg : aws.Config).

Module ListObjectsV2Input.
Record t : Type := mk { Bucket : string; Prefix : string }.
End ListObjectsV2Input.

Module ListObjectsV2Output.
Record t : Type := mk { Contents : list types.Object }.
End ListObjectsV2Output.

Module PutObjectInput.
Record t : Type := mk {
  Bucket : string;
  Key : string;
  Body : option ReadSeeker;
  ACL : types.ObjectCannedACL
}.
End PutObjectInput.

Module DeleteObjectsInput.
Record t : Type := mk { Bucket : string; Delete : types.Delete }.
End DeleteObjectsInput.
End s3.

(** One call into the SDK. *)
Inductive call : Type :=
  | LoadDefaultConfig (baseEndpoint region accessKey secretKey session : string)
  | ListObjectsV2 (input : s3.ListObjectsV2Input.t)
  | PutObject (input : s3.PutObjectInput.t)
  | DeleteObjects (input : s3.DeleteObjectsInput.t)
  | PresignPutObject (input : s3.PutObjectInput.t) (expires : Z).

(** What the SDK hands back. The outputs of [PutObject] and
    [DeleteObjects] are discarded by the code, so only [err] is kept;
    of the presigned request only [URL] is read. *)
Definition resp (c : call) : Type :=
  match c with
  | LoadDefaultConfig _ _ _ _ _ => (error + aws.Config)%type
  | ListObjectsV2 _ => (error + s3.ListObjectsV2Output.t)%type
  | PutObject _ => option error
  | DeleteObjects _ => option error
  | PresignPutObject _ _ => (error + string)%type
  end.

(** ** Computations *)

(** Ways a run leaves the model: a nil [*Config] is dereferenced (Go
    panics), or a format string uses a directive outside [fmt]. *)
Inductive halt : Type :=
  | NilDereference
  | FormatNotModelled.

(** Code that touches no collaborator. *)
Inductive outcome (A : Type) : Type :=
  | Done (a : A)
  | Halted (h : halt).
Arguments Done {A} a.
Arguments Halted {A} h.

(** Code that calls the SDK: a tree branching on each response. *)
Inductive prog (A : Type) : Type :=
  | Ret (a : A)
  | Stop (h : halt)
  | Vis (c : call) (k : resp c -> prog A).
Arguments Ret {A} a.
Arguments Stop {A} h.
Arguments Vis {A} c k.

Definition obind {A B} (o : outcome A) (f : A -> outcome B) : outcome B :=
  match o with
  | Done a => f a
  | Halted h => Halted h
  end.

Definition lift {A B} (o : outcome A) (f : A -> prog B) : prog B :=
  match o with
  | Done a => f a
  | Halted h => Stop h
  end.

Definition formatted (o : option string) : outcome string :=
  match o with
  | Some s => Done s
  | None => Halted FormatNotModelled
  end.

Notation "'let*' x := o 'in' k" := (obind o (fun x => k))
  (at level 10, x pattern, o at level 100, k at level 200, only parsing).
Notation "'let!' x := o 'in' k" := (lift o (fun x => k))
  (at level 10, x pattern, o at level 100, k at level 200, only parsing).

(** The SDK's side: responses may depend on the calls made so far. *)
Definition handler : Type := list call -> forall c : call, resp c.

Fixpoint run {A} (h : handler) (p : prog A) (tr : list call)
  : outcome A * list call :=
  match p with
  | Ret a => (Done a, tr)
  | Stop x => (Halted x, tr)
  | Vis c k => run h (k (h tr c)) (tr ++ [c])
  end.

(** ** The manager ([src/s3_manager.go]) *)

Abbreviation loc := positive (only parsing).

(** The [Config] objects that pointers refer to. A nil pointer is a
    location outside the heap. *)
Abbreviation heap := (gmap positive Config.t) (only parsing).

Record s3Manager : Type := {
  client : s3.Client;
  cfg : loc;
  storagePaths : gmap string string
}.

Definition deref (σ : heap) (l : loc) : outcome Config.t :=
  match σ !! l with
  | Some c => Done c
  | None => Halted NilDereference
  end.

Definition AddCatalog (r : s3Manager) (catalogType : CatalogType)
    (pathPattern : string) : s3Manager :=
  {| client := client r;
     cfg := cfg r;
     storagePaths := <[catalogType := pathPattern]> (storagePaths r) |}.

Definition NewS3Manager (σ : heap) (cfg : loc) (isTestServer : bool)
  : prog (heap * (option s3Manager * option error)) :=
  let! c0 := deref σ cfg in
  let σ' :=
    if isTestServer then <[cfg := Config.appendRootCatalog "test/" c0]> σ
    else σ in
  let! c := deref σ' cfg in
  Vis (LoadDefaultConfig (Config.Endpoint c) (Config.Region c)
         (Config.AccessKey c) (Config.SecretKey c) "")
    (fun r =>
       match r with
       | inl err =>
           Ret (σ', (None, Some (ErrorfW "NewS3Manager/LoadDefaultConfig: " err)))
       | inr bucketCfg =>
           let s3Manager :=
             {| client := s3.NewFromConfig bucketCfg;
                cfg := cfg;
                storagePaths := ∅ |} in
           Ret (σ', (Some (AddCatalog s3Manager PathCustomCatalog "%s"), None))
       end).

Definition GetCatalogPattern (r : s3Manager) (storagePath : StoragePath.t)
  : outcome string :=
  match storagePaths r !! StoragePath.CatalogType storagePath with
  | None => Done ""
  | Some pathPattern =>
      formatted
        (fmt.Sprintf (StoragePath.RootCatalog storagePath +:+ pathPattern)
           [fmt.Int64 (StoragePath.EntityID storagePath)])
  end.

Definition GetObjectURL (σ : heap) (r : s3Manager)
    (storagePath : StoragePath.t) (fileName : string)
  : outcome (string * option error) :=
  if decide (fileName = "") then
    Done ("", Some (Errorf "GetObjectURL: file name is empty"))
  else
    let* c := deref σ (cfg r) in
    let storagePath := StoragePath.setRootCatalog (Config.RootCatalog c) storagePath in
    let* dir := GetCatalogPattern r storagePath in
    let fullPath := dir +:+ fileName in
    let* fileURL :=
      (if decide (Config.CDN c ≠ "") then
         formatted (fmt.Sprintf "%s/%s" [fmt.Str (Config.CDN c); fmt.Str fullPath])
       else
         formatted (fmt.Sprintf "%s/%s/%s"
           [fmt.Str (Config.Endpoint c); fmt.Str (Config.Name c); fmt.Str fullPath])) in
    Done (fileURL, None).

(** The loop of [GetFiles] over [output.Contents]. *)
Fixpoint fileURLs (c : Config.t) (contents : list types.Object)
  : outcome (list string) :=
  match contents with
  | [] => Done []
  | obj :: rest =>
      match types.ObjectKey obj with
      | None => fileURLs c rest
      | Some key =>
          let* url :=
            formatted (fmt.Sprintf "%s/%s/%s"
              [fmt.Str (Config.Endpoint c); fmt.Str (Config.Name c); fmt.Str key]) in
          let* urls := fileURLs c rest in
          Done (url :: urls)
      end
  end.

Definition GetFiles (σ : heap) (r : s3Manager) (prefix : string)
  : prog (list string * option error) :=
  let! c := deref σ (cfg r) in
  let getInput := s3.ListObjectsV2Input.mk (Config.Name c) prefix in
  Vis (ListObjectsV2 getInput)
    (fun res =>
       match res with
       | inl err => Ret ([], Some (ErrorfW "GetFiles/ListObjectsV2: " err))
       | inr output =>
           let! urls := fileURLs c (s3.ListObjectsV2Output.Contents output) in
           Ret (urls, None)
       end).

Definition PutFile (σ : heap) (r : s3Manager) (storagePath : StoragePath.t)
    (data : option BucketFile.t) : prog (string * option error) :=
  match data with
  | None => Ret ("", Some (Errorf "PutFile: invalid file data"))
  | Some d =>
      if decide (BucketFile.File d = None ∨ BucketFile.Name d = "") then
        Ret ("", Some (Errorf "PutFile: invalid file data"))
      else
        let! c := deref σ (cfg r) in
        let storagePath :=
          StoragePath.setRootCatalog (Config.RootCatalog c) storagePath in
        let! dir := GetCatalogPattern r storagePath in
        let fullPath := dir +:+ BucketFile.Name d in
        let putInput :=
          s3.PutObjectInput.mk (Config.Name c) fullPath (BucketFile.File d)
            types.ObjectCannedACLPublicRead in
        Vis (PutObject putInput)
          (fun err =>
             match err with
             | Some e => Ret ("", Some (ErrorfW "PutFile/PutObject: " e))
             | None =>
                 let! res := GetObjectURL σ r storagePath (BucketFile.Name d) in
                 match res with
                 | (_, Some e) => Ret ("", Some (ErrorfW "PutFile/GetObjectURL: " e))
                 | (fileURL, None) => Ret (fileURL, None)
                 end
             end)
  end.

Definition DeleteFiles (σ : heap) (r : s3Manager) (storagePath : StoragePath.t)
    (fileName : string) : prog (option error) :=
  let! c := deref σ (cfg r) in
  let storagePath :=
    StoragePath.setRootCatalog (Config.RootCatalog c) storagePath in
  let! dir := GetCatalogPattern r storagePath in
  let fullPath := dir +:+ fileName in
  let getInput := s3.ListObjectsV2Input.mk (Config.Name c) fullPath in
  Vis (ListObjectsV2 getInput)
    (fun res =>
       match res with
       | inl err => Ret (Some (ErrorfW "DeleteFiles/ListObjectsV2: " err))
       | inr objects =>
           match s3.ListObjectsV2Output.Contents objects with
           | [] => Ret None
           | contents =>
               let objectIds :=
                 map (fun item => types.Build_ObjectIdentifier (types.ObjectKey item))
                   contents in
               let deleteInput :=
                 s3.DeleteObjectsInput.mk (Config.Name c)
                   (types.Build_Delete objectIds true) in
               Vis (DeleteObjects deleteInput)
                 (fun err =>
                    match err with
                    | Some e => Ret (Some (ErrorfW "DeleteFiles/DeleteObjects: " e))
                    | None => Ret None
                    end)
           end
       end).

Definition GetUploadPresignedURL (σ : heap) (r : s3Manager)
    (storagePath : StoragePath.t) (fileName : string) (expireTime : Z)
  : prog (string * option error) :=
  if decide (fileName = "") then
    Ret ("", Some (Errorf "GetUploadPresignedURL: file name is empty"))
  else
    let! c := deref σ (cfg r) in
    let storagePath :=
      StoragePath.setRootCatalog (Config.RootCatalog c) storagePath in
    let! dir := GetCatalogPattern r storagePath in
    let fullPath := dir +:+ fileName in
    let putInput := s3.PutObjectInput.mk (Config.Name c) fullPath None "" in
    let expireTime :=
      if decide (expireTime = 0) then Config.PresignedURLExpireTime c
      else expireTime in
    Vis (PresignPutObject putInput expireTime)
      (fun res =>
         match res with
         | inl err =>
             Ret ("", Some (ErrorfW
               "GetUploadPresignedURL/PresignPutObject: failed to create presigned request: "
               err))
         | inr url => Ret (url, None)
         end).

(** Sequencing of programs, for scenarios with several calls. *)
Fixpoint pbind {A B} (p : prog A) (f : A -> prog B) : prog B :=
  match p with
  | Ret a => f a
  | Stop h => Stop h
  | Vis c k => Vis c (fun x => pbind (k x) f)
  end.

(** [n] construction calls in a row, all on the same [*Config]. *)
Fixpoint construct (n : nat) (σ : heap) (cfg : loc) (isTestServer : bool)
  : prog heap :=
  match n with
  | O => Ret σ
  | S n' =>
      pbind (NewS3Manager σ cfg isTestServer)
        (fun res => construct n' (fst res) cfg isTestServer)
  end.

(** [RootCatalog] of the object at [l] once a run is over. *)
Definition rootCatalogAt (l : loc) (o : outcome heap * list call)
  : option string :=
  match fst o with
  | Done σ => Config.RootCatalog <$> σ !! l
  | Halted _ => None
  end.

(** ** Vocabulary of the specification *)

(** A string without ['%']: as a format it is copied verbatim. *)
Fixpoint percentFree (s : string) : bool :=
  match s with
  | EmptyString => true
  | String c s' => if decide (c = "%"%char) then false else percentFree s'
  end.

(** [n] copies of the test-mode segment. *)
Fixpoint testSegments (n : nat) : string :=
  match n with
  | O => ""
  | S n' => "test/" +:+ testSegments n'
  end.

(** One page holding every key of the bucket that starts with [prefix]. *)
Definition listing (keys : list string) (prefix : string)
  : s3.ListObjectsV2Output.t :=
  s3.ListObjectsV2Output.mk
    (map (fun k => types.Build_Object (Some k))
       (List.filter (String.prefix prefix) keys)).

(** A bucket configuration and an SDK that always succeeds, for examples. *)
Definition exampleConfig : Config.t :=
  Config.mk "https://s3.example.com" "us-east-1" "ak" "sk" "mybucket"
    "/svc/" "" 900.

Definition exampleCdnConfig : Config.t :=
  Config.mk "https://s3.example.com" "us-east-1" "ak" "sk" "mybucket"
    "/svc/" "https://cdn.example.com" 900.

Definition obligingSdk (contents : list types.Object) : handler :=
  fun _ c =>
    match c with
    | LoadDefaultConfig _ _ _ _ _ => inr (aws.LoadedConfig 1)
    | ListObjectsV2 _ => inr (s3.ListObjectsV2Output.mk contents)
    | PutObject _ => None
    | DeleteObjects _ => None
    | PresignPutObject i _ => inr ("https://signed/" +:+ s3.PutObjectInput.Key i)
    end.

(** An SDK in front of a bucket that holds [keys]: a listing returns the
    keys under the prefix, every other call succeeds. *)
Definition bucketSdk (keys : list string) : handler :=
  fun _ c =>
    match c with
    | LoadDefaultConfig _ _ _ _ _ => inr (aws.LoadedConfig 1)
    | ListObjectsV2 i => inr (listing keys (s3.ListObjectsV2Input.Prefix i))
    | PutObject _ => None
    | DeleteObjects _ => None
    | PresignPutObject i _ => inr ("https://signed/" +:+ s3.PutObjectInput.Key i)
    end.

(** An SDK that answers every call of one kind with the given response. *)
Definition scriptedSdk (load : error + aws.Config)
    (list : error + s3.ListObjectsV2Output.t) (put del : option error)
    (presign : error + string) : handler :=
  fun _ c =>
    match c with
    | LoadDefaultConfig _ _ _ _ _ => load
    | ListObjectsV2 _ => list
    | PutObject _ => put
    | DeleteObjects _ => del
    | PresignPutObject _ _ => presign
    end.

(** The manager [NewS3Manager] returns for a [Config] at location 1. *)
Definition exampleManager : s3Manager :=
  AddCatalog
    {| client := s3.NewFromConfig (aws.LoadedConfig 1);
       cfg := 1%positive;
       storagePaths := ∅ |}
    PathCustomCatalog "%s".

(** * Properties *)

(** ** Strings and formatting *)

Lemma string_app_nil_l (s : string) : "" +:+ s = s.
Proof. reflexivity. Qed.

Lemma string_app_cons (c : ascii) (s t : string) : String c s +:+ t = String c (s +:+ t).
Proof. reflexivity. Qed.

Lemma string_app_nil_r (s : string) : s +:+ "" = s.
Proof.
  induction s as [|c s IH]; [reflexivity|]. now rewrite string_app_cons, IH.
Qed.

Lemma string_app_assoc (s t u : string) : (s +:+ t) +:+ u = s +:+ t +:+ u.
Proof.
  induction s as [|c s IH]; [reflexivity|]. now rewrite !string_app_cons, IH.
Qed.

Lemma fmap_app_compose (s t : string) (o : option string) :
  String.append s <$> (String.append t <$> o) = String.append (s +:+ t) <$> o.
Proof. destruct o as [x|]; [|reflexivity]. cbn. now rewrite string_app_assoc. Qed.

(** A ['%']-free stretch of a format is copied to the output. *)
Lemma doPrintf_literal (lit format : string) (a : list fmt.arg) (argNum : nat) :
  percentFree lit = true ->
  fmt.doPrintf (lit +:+ format) a argNum
  = String.append lit <$> fmt.doPrintf format a argNum.
Proof.
  induction lit as [|c lit IH]; intros Hlit.
  - rewrite string_app_nil_l. now destruct (fmt.doPrintf format a argNum).
  - cbn in Hlit. rewrite string_app_cons. cbn [fmt.doPrintf].
    destruct (decide (c = "%"%char)) as [|Hc]; [discriminate|].
    rewrite (IH Hlit). now destruct (fmt.doPrintf format a argNum).
Qed.

(** A lone [%d] consumes the [int64] operand and prints it in decimal. *)
Lemma doPrintf_d (format : string) (n : Z) :
  fmt.doPrintf ("%d" +:+ format) [fmt.Int64 n] 0
  = String.append (fmt.fmtInteger n) <$> fmt.doPrintf format [fmt.Int64 n] 1.
Proof. reflexivity. Qed.

(** With every operand consumed, a ['%']-free tail is the rest of the output. *)
Lemma doPrintf_tail (lit : string) (a : list fmt.arg) :
  percentFree lit = true -> fmt.doPrintf lit a (List.length a) = Some lit.
Proof.
  intros Hlit. rewrite <- (string_app_nil_r lit) at 1.
  rewrite doPrintf_literal by assumption. cbn [fmt.doPrintf].
  unfold fmt.extraArgs. rewrite drop_all. cbn. now rewrite string_app_nil_r.
Qed.

Lemma Sprintf_one_slot (root pre post : string) (n : Z) :
  percentFree root = true -> percentFree pre = true -> percentFree post = true ->
  fmt.Sprintf (root +:+ pre +:+ "%d" +:+ post) [fmt.Int64 n]
  = Some (root +:+ pre +:+ fmt.fmtInteger n +:+ post).
Proof.
  intros Hroot Hpre Hpost. unfold fmt.Sprintf.
  rewrite !doPrintf_literal by assumption.
  rewrite doPrintf_d.
  change 1%nat with (List.length [fmt.Int64 n]).
  rewrite doPrintf_tail by assumption.
  reflexivity.
Qed.

Lemma Sprintf_s_s (a b : string) :
  fmt.Sprintf "%s/%s" [fmt.Str a; fmt.Str b] = Some (a +:+ "/" +:+ b).
Proof.
  transitivity (Some (a +:+ "/" +:+ b +:+ "")); [reflexivity|].
  now rewrite string_app_nil_r.
Qed.

Lemma Sprintf_s_s_s (a b c : string) :
  fmt.Sprintf "%s/%s/%s" [fmt.Str a; fmt.Str b; fmt.Str c]
  = Some (a +:+ "/" +:+ b +:+ "/" +:+ c).
Proof.
  transitivity (Some (a +:+ "/" +:+ b +:+ "/" +:+ c +:+ "")); [reflexivity|].
  now rewrite string_app_nil_r.
Qed.

(** The renderings of [fmt] on small formats. *)
Example Sprintf_decimal :
  fmt.Sprintf "products/%d/" [fmt.Int64 (-42)] = Some "products/-42/".
Proof. reflexivity. Qed.

Example Sprintf_percent_sign :
  fmt.Sprintf "%d%%" [fmt.Int64 5] = Some "5%".
Proof. reflexivity. Qed.

Example Sprintf_missing_operand :
  fmt.Sprintf "%d %d" [fmt.Int64 1] = Some "1 %!d(MISSING)".
Proof. reflexivity. Qed.

Example Sprintf_extra_operand :
  fmt.Sprintf "root/" [fmt.Int64 1] = Some "root/%!(EXTRA int64=1)".
Proof. reflexivity. Qed.

Example Sprintf_no_verb :
  fmt.Sprintf "%" [fmt.Int64 1] = Some "%!(NOVERB)%!(EXTRA int64=1)".
Proof. reflexivity. Qed.

Example Sprintf_type_verb :
  fmt.Sprintf "%T" [fmt.Str "x"] = Some "string".
Proof. reflexivity. Qed.

Example Sprintf_width_not_modelled :
  fmt.Sprintf "%5d" [fmt.Int64 1] = None.
Proof. reflexivity. Qed.

(** For an [int64] operand [s] is a bad verb. *)
Lemma Sprintf_s_int64 (n : Z) :
  fmt.Sprintf "%s" [fmt.Int64 n]
  = Some ("%!s(int64=" +:+ fmt.fmtInteger n +:+ ")").
Proof.
  transitivity (Some (("%!s(int64=" +:+ fmt.fmtInteger n +:+ ")") +:+ ""));
    [reflexivity|].
  now rewrite string_app_nil_r.
Qed.

(** ** Path resolution *)

Lemma GetCatalogPattern_registered (r : s3Manager) (storagePath : StoragePath.t)
    (pathPattern : string) :
  storagePaths r !! StoragePath.CatalogType storagePath = Some pathPattern ->
  GetCatalogPattern r storagePath
  = formatted
      (fmt.Sprintf (StoragePath.RootCatalog storagePath +:+ pathPattern)
         [fmt.Int64 (StoragePath.EntityID storagePath)]).
Proof. intros Hreg. unfold GetCatalogPattern. now rewrite Hreg. Qed.

Lemma AddCatalog_lookup (r : s3Manager) (t : CatalogType) (pathPattern : string) :
  storagePaths (AddCatalog r t pathPattern) !! t = Some pathPattern.
Proof. cbn. apply lookup_insert_eq. Qed.

Lemma AddCatalog_lookup_ne (r : s3Manager) (t t' : CatalogType)
    (pathPattern : string) :
  t ≠ t' ->
  storagePaths (AddCatalog r t pathPattern) !! t' = storagePaths r !! t'.
Proof. intros Hne. cbn. now apply lookup_insert_ne. Qed.

(** The root is part of the format string; when it has no ['%'] it comes
    out in front of the formatted pattern, whatever the pattern is. *)
Lemma GetCatalogPattern_literal_root (r : s3Manager) (t : CatalogType)
    (root pathPattern custom : string) (n : Z) :
  storagePaths r !! t = Some pathPattern ->
  percentFree root = true ->
  GetCatalogPattern r (StoragePath.mk root t n custom)
  = formatted (String.append root <$> fmt.Sprintf pathPattern [fmt.Int64 n]).
Proof.
  intros Hreg Hroot.
  rewrite (GetCatalogPattern_registered _ _ pathPattern) by exact Hreg.
  cbn [StoragePath.RootCatalog StoragePath.EntityID]. unfold fmt.Sprintf.
  now rewrite doPrintf_literal.
Qed.

Lemma GetCatalogPattern_unregistered (r : s3Manager)
    (storagePath : StoragePath.t) :
  storagePaths r !! StoragePath.CatalogType storagePath = None ->
  GetCatalogPattern r storagePath = Done "".
Proof. intros Hmiss. unfold GetCatalogPattern. now rewrite Hmiss. Qed.

(** C3: for a StoragePath whose CatalogType has no entry in the registry,
    GetCatalogPattern returns exactly the empty string, whatever
    RootCatalog, EntityID and CustomPath are; the result is a plain string,
    no error is involved. *)
Theorem C3_unregistered_is_empty (r : s3Manager) (storagePath : StoragePath.t) :
  storagePaths r !! StoragePath.CatalogType storagePath = None ->
  GetCatalogPattern r storagePath = Done "".
Proof. apply GetCatalogPattern_unregistered. Qed.

Lemma C3_unregistered_is_empty_witness :
  storagePaths exampleManager !! "product" = None
  ∧ GetCatalogPattern exampleManager
      (StoragePath.mk "/svc/" "product" 42 "custom/path/") = Done "".
Proof.
  split; [reflexivity|].
  apply (C3_unregistered_is_empty exampleManager
           (StoragePath.mk "/svc/" "product" 42 "custom/path/")).
  reflexivity.
Defined.

(** X21: for a catalog type registered with a pattern made of a
    ['%']-free stretch, one [%d] and a ['%']-free stretch, a root prefix
    without ['%'] and an entity id n, GetCatalogPattern is the root, then
    the first stretch, n in decimal and the second stretch. *)
Theorem GetCatalogPattern_one_slot_pattern (r : s3Manager) (t : CatalogType)
    (root pre post custom : string) (n : Z) :
  percentFree root = true ->
  percentFree pre = true ->
  percentFree post = true ->
  ∃ formattedPattern : string,
    fmt.Sprintf (pre +:+ "%d" +:+ post) [fmt.Int64 n] = Some formattedPattern
    ∧ formattedPattern = pre +:+ fmt.fmtInteger n +:+ post
    ∧ GetCatalogPattern (AddCatalog r t (pre +:+ "%d" +:+ post))
        (StoragePath.mk root t n custom)
      = Done (root +:+ formattedPattern).
Proof.
  intros Hroot Hpre Hpost.
  assert (fmt.Sprintf (pre +:+ "%d" +:+ post) [fmt.Int64 n]
          = Some (pre +:+ fmt.fmtInteger n +:+ post)) as Hfmt.
  { exact (Sprintf_one_slot "" pre post n eq_refl Hpre Hpost). }
  eexists. split; [exact Hfmt|]. split; [reflexivity|].
  rewrite (GetCatalogPattern_literal_root _ t root (pre +:+ "%d" +:+ post))
    by (apply AddCatalog_lookup || exact Hroot).
  now rewrite Hfmt.
Qed.

Lemma GetCatalogPattern_one_slot_pattern_witness :
  GetCatalogPattern (AddCatalog exampleManager "product" "products/%d/")
    (StoragePath.mk "/svc/" "product" 42 "")
  = Done "/svc/products/42/".
Proof.
  destruct (GetCatalogPattern_one_slot_pattern exampleManager "product"
              "/svc/" "products/" "/" "" 42 eq_refl eq_refl eq_refl)
    as (s & _ & -> & Hres).
  exact Hres.
Defined.

(** C4 at a failing input: the pattern "products/%d/" formatted with 42 is
    "products/42/", but with the root prefix "50%/" the resolver does not
    return the root followed by it. The root is handed to the formatter as
    part of the format string, its ['%'] is read as the start of a directive
    and takes the operand, and the pattern's own slot is left without
    one. *)
Lemma C4_root_with_percent :
  fmt.Sprintf "products/%d/" [fmt.Int64 42] = Some "products/42/"
  ∧ GetCatalogPattern (AddCatalog exampleManager "product" "products/%d/")
      (StoragePath.mk "50%/" "product" 42 "")
    = Done "50%!/(int64=42)products/%!d(MISSING)/"
  ∧ GetCatalogPattern (AddCatalog exampleManager "product" "products/%d/")
      (StoragePath.mk "50%/" "product" 42 "")
    ≠ Done ("50%/" +:+ "products/42/").
Proof.
  split; [reflexivity|].
  assert (GetCatalogPattern (AddCatalog exampleManager "product" "products/%d/")
            (StoragePath.mk "50%/" "product" 42 "")
          = Done "50%!/(int64=42)products/%!d(MISSING)/") as Hres
    by (vm_compute; reflexivity).
  split; [exact Hres|]. rewrite Hres. discriminate.
Qed.

(** The built-in pattern ["%s"] receives EntityID, an [int64], for which
    [s] is a bad verb; CustomPath does not reach the output. *)
Lemma GetCatalogPattern_custom_catalog (r : s3Manager)
    (root custom : string) (n : Z) :
  storagePaths r !! PathCustomCatalog = Some "%s" ->
  percentFree root = true ->
  GetCatalogPattern r (StoragePath.mk root PathCustomCatalog n custom)
  = Done (root +:+ "%!s(int64=" +:+ fmt.fmtInteger n +:+ ")").
Proof.
  intros Hreg Hroot.
  rewrite (GetCatalogPattern_literal_root _ _ root "%s") by assumption.
  now rewrite Sprintf_s_int64.
Qed.

(** C1 at a failing input: the manager as NewS3Manager builds it, the
    custom-catalog type and CustomPath "custom/path/". The resolver puts
    the bad-verb rendering of EntityID where the claim expects the custom
    path. *)
Theorem C1_custom_path_not_substituted :
  fst (run (obligingSdk []) (NewS3Manager {[1%positive := exampleConfig]} 1 false) [])
  = Done ({[1%positive := exampleConfig]}, (Some exampleManager, None))
  ∧ GetCatalogPattern exampleManager
      (StoragePath.mk "svc/" PathCustomCatalog 0 "custom/path/")
    = Done "svc/%!s(int64=0)"
  ∧ GetCatalogPattern exampleManager
      (StoragePath.mk "svc/" PathCustomCatalog 0 "custom/path/")
    ≠ Done "svc/custom/path/".
Proof.
  split; [vm_compute; reflexivity|].
  assert (GetCatalogPattern exampleManager
            (StoragePath.mk "svc/" PathCustomCatalog 0 "custom/path/")
          = Done "svc/%!s(int64=0)") as Hres.
  { exact (GetCatalogPattern_custom_catalog exampleManager "svc/"
             "custom/path/" 0 eq_refl eq_refl). }
  split; [exact Hres|]. rewrite Hres. discriminate.
Qed.

(** ** Object URLs *)

Lemma deref_Some (σ : heap) (l : loc) (c : Config.t) :
  σ !! l = Some c -> deref σ l = Done c.
Proof. intros Hl. unfold deref. now rewrite Hl. Qed.

(** The common opening of the methods: read the configuration behind
    [r.cfg], then resolve the directory prefix. *)
Ltac read_config Hcfg := rewrite (deref_Some _ _ _ Hcfg); cbn [lift obind].
Ltac resolve_dir Hcfg Hdir := read_config Hcfg; rewrite Hdir; cbn [lift obind].

(** C7: for a non-empty file name GetObjectURL is {cdn}/{fullKey} when a CDN
    host is configured and {endpoint}/{bucket}/{fullKey} when it is empty,
    fullKey being the prefix resolved with the configured RootCatalog
    followed by the file name. The function is an [outcome]: it has no way
    to call the SDK and returns no heap. *)
Theorem C7_GetObjectURL_forms (σ : heap) (r : s3Manager)
    (storagePath : StoragePath.t) (fileName : string) (c : Config.t)
    (dir : string) :
  fileName ≠ "" ->
  σ !! cfg r = Some c ->
  GetCatalogPattern r
    (StoragePath.setRootCatalog (Config.RootCatalog c) storagePath) = Done dir ->
  GetObjectURL σ r storagePath fileName
  = Done
      (if decide (Config.CDN c = "") then
         Config.Endpoint c +:+ "/" +:+ Config.Name c +:+ "/" +:+ dir +:+ fileName
       else Config.CDN c +:+ "/" +:+ dir +:+ fileName,
       None).
Proof.
  intros Hname Hcfg Hdir. unfold GetObjectURL.
  destruct (decide (fileName = "")) as [|_]; [contradiction|].
  resolve_dir Hcfg Hdir.
  destruct (decide (Config.CDN c = "")) as [Hcdn|Hcdn].
  - destruct (decide (Config.CDN c ≠ "")) as [|_]; [contradiction|].
    now rewrite Sprintf_s_s_s.
  - destruct (decide (Config.CDN c ≠ "")) as [_|]; [|contradiction].
    now rewrite Sprintf_s_s.
Qed.

Lemma C7_GetObjectURL_forms_witness :
  GetObjectURL {[1%positive := exampleConfig]}
    (AddCatalog exampleManager "product" "products/%d/")
    (StoragePath.mk "" "product" 42 "") "cert.pdf"
  = Done ("https://s3.example.com/mybucket//svc/products/42/cert.pdf", None)
  ∧ GetObjectURL {[1%positive := exampleCdnConfig]}
      (AddCatalog exampleManager "product" "products/%d/")
      (StoragePath.mk "" "product" 42 "") "cert.pdf"
    = Done ("https://cdn.example.com//svc/products/42/cert.pdf", None).
Proof.
  split.
  - apply (C7_GetObjectURL_forms {[1%positive := exampleConfig]}
             (AddCatalog exampleManager "product" "products/%d/")
             (StoragePath.mk "" "product" 42 "") "cert.pdf"
             exampleConfig "/svc/products/42/");
      [discriminate|reflexivity|reflexivity].
  - apply (C7_GetObjectURL_forms {[1%positive := exampleCdnConfig]}
             (AddCatalog exampleManager "product" "products/%d/")
             (StoragePath.mk "" "product" 42 "") "cert.pdf"
             exampleCdnConfig "/svc/products/42/");
      [discriminate|reflexivity|reflexivity].
Defined.

(** ** Calls into the SDK *)

Lemma run_Vis {A} (h : handler) (c : call) (k : resp c -> prog A)
    (tr : list call) :
  run h (Vis c k) tr = run h (k (h tr c)) (tr ++ [c]).
Proof. reflexivity. Qed.

Lemma run_pbind {A B} (h : handler) (p : prog A) (f : A -> prog B)
    (tr : list call) :
  run h (pbind p f) tr
  = match run h p tr with
    | (Done a, tr') => run h (f a) tr'
    | (Halted x, tr') => (Halted x, tr')
    end.
Proof.
  revert tr. induction p as [a|x|c k IH]; intros tr; cbn; [reflexivity..|].
  apply IH.
Qed.

(** C5: PutFile with a nil descriptor, a nil stream or an empty name
    returns the invalid-input error; the trace of SDK calls is the one it
    started with, so no upload and no other call is issued. PutFile takes
    the heap and the manager as inputs only. *)
Theorem C5_PutFile_rejects_invalid_input (h : handler) (σ : heap)
    (r : s3Manager) (storagePath : StoragePath.t) (data : option BucketFile.t)
    (tr : list call) :
  (data = None
   ∨ ∃ d, data = Some d ∧ (BucketFile.File d = None ∨ BucketFile.Name d = "")) ->
  run h (PutFile σ r storagePath data) tr
  = (Done ("", Some (Errorf "PutFile: invalid file data")), tr).
Proof.
  intros [->|(d & -> & Hbad)]; [reflexivity|].
  unfold PutFile.
  destruct (decide (BucketFile.File d = None ∨ BucketFile.Name d = ""))
    as [_|Hok]; [reflexivity|contradiction].
Qed.

Lemma C5_PutFile_rejects_invalid_input_witness :
  run (obligingSdk []) (PutFile {[1%positive := exampleConfig]} exampleManager
         (StoragePath.mk "" PathCustomCatalog 0 "a/")
         (Some (BucketFile.mk (Some "bytes") ""))) []
  = (Done ("", Some (Errorf "PutFile: invalid file data")), []).
Proof.
  apply (C5_PutFile_rejects_invalid_input (obligingSdk [])
           {[1%positive := exampleConfig]} exampleManager
           (StoragePath.mk "" PathCustomCatalog 0 "a/")
           (Some (BucketFile.mk (Some "bytes") "")) []).
  right. exists (BucketFile.mk (Some "bytes") "").
  split; [reflexivity|]. right. reflexivity.
Defined.

(** C6: when the listing under the computed delete prefix returns zero
    objects, DeleteFiles returns nil; the listing is the only call of the
    run, the bulk delete is not invoked. *)
Theorem C6_DeleteFiles_empty_listing (h : handler) (σ : heap) (r : s3Manager)
    (storagePath : StoragePath.t) (fileName : string) (tr : list call)
    (c : Config.t) (dir : string) :
  σ !! cfg r = Some c ->
  GetCatalogPattern r
    (StoragePath.setRootCatalog (Config.RootCatalog c) storagePath) = Done dir ->
  h tr (ListObjectsV2
          (s3.ListObjectsV2Input.mk (Config.Name c) (dir +:+ fileName)))
  = inr (s3.ListObjectsV2Output.mk []) ->
  run h (DeleteFiles σ r storagePath fileName) tr
  = (Done None,
     tr ++ [ListObjectsV2
              (s3.ListObjectsV2Input.mk (Config.Name c) (dir +:+ fileName))]).
Proof.
  intros Hcfg Hdir Hlist. unfold DeleteFiles.
  resolve_dir Hcfg Hdir. rewrite run_Vis, Hlist. reflexivity.
Qed.

Lemma C6_DeleteFiles_empty_listing_witness :
  run (obligingSdk []) (DeleteFiles {[1%positive := exampleConfig]}
         (AddCatalog exampleManager "product" "products/%d/")
         (StoragePath.mk "" "product" 42 "") "cert.pdf") []
  = (Done None,
     [ListObjectsV2
        (s3.ListObjectsV2Input.mk "mybucket" "/svc/products/42/cert.pdf")]).
Proof.
  apply (C6_DeleteFiles_empty_listing (obligingSdk [])
           {[1%positive := exampleConfig]}
           (AddCatalog exampleManager "product" "products/%d/")
           (StoragePath.mk "" "product" 42 "") "cert.pdf" []
           exampleConfig "/svc/products/42/");
    reflexivity.
Defined.

(** C8: for a non-empty file name the presign request carries the
    configured default expiry when expireTime is zero and the given value
    when it is positive; for an empty file name the invalid-input error is
    returned and nothing is called. *)
Theorem C8_presign_expiry (h : handler) (σ : heap) (r : s3Manager)
    (storagePath : StoragePath.t) (fileName : string) (tr : list call)
    (c : Config.t) (dir : string) :
  fileName ≠ "" ->
  σ !! cfg r = Some c ->
  GetCatalogPattern r
    (StoragePath.setRootCatalog (Config.RootCatalog c) storagePath) = Done dir ->
  snd (run h (GetUploadPresignedURL σ r storagePath fileName 0) tr)
  = tr ++ [PresignPutObject
             (s3.PutObjectInput.mk (Config.Name c) (dir +:+ fileName) None "")
             (Config.PresignedURLExpireTime c)]
  ∧ (∀ expireTime : Z,
        0 < expireTime ->
        snd (run h (GetUploadPresignedURL σ r storagePath fileName expireTime) tr)
        = tr ++ [PresignPutObject
                   (s3.PutObjectInput.mk (Config.Name c) (dir +:+ fileName) None "")
                   expireTime])
  ∧ (∀ expireTime : Z,
        run h (GetUploadPresignedURL σ r storagePath "" expireTime) tr
        = (Done ("", Some (Errorf "GetUploadPresignedURL: file name is empty")),
           tr)).
Proof.
  intros Hname Hcfg Hdir.
  assert (∀ expireTime : Z,
            snd (run h (GetUploadPresignedURL σ r storagePath fileName expireTime) tr)
            = tr ++ [PresignPutObject
                       (s3.PutObjectInput.mk (Config.Name c) (dir +:+ fileName)
                          None "")
                       (if decide (expireTime = 0)
                        then Config.PresignedURLExpireTime c
                        else expireTime)]) as Hcall.
  { intros expireTime. unfold GetUploadPresignedURL.
    destruct (decide (fileName = "")) as [|_]; [contradiction|].
    resolve_dir Hcfg Hdir. rewrite run_Vis.
    now destruct (h tr _) as [err|url]. }
  split; [exact (Hcall 0)|]. split.
  - intros expireTime Hpos. rewrite Hcall.
    destruct (decide (expireTime = 0)) as [->|_]; [lia|reflexivity].
  - intros expireTime. reflexivity.
Qed.

Lemma C8_presign_expiry_witness :
  snd (run (obligingSdk []) (GetUploadPresignedURL {[1%positive := exampleConfig]}
         (AddCatalog exampleManager "product" "products/%d/")
         (StoragePath.mk "" "product" 42 "") "cert.pdf" 0) [])
  = [PresignPutObject
       (s3.PutObjectInput.mk "mybucket" "/svc/products/42/cert.pdf" None "") 900]
  ∧ snd (run (obligingSdk []) (GetUploadPresignedURL {[1%positive := exampleConfig]}
         (AddCatalog exampleManager "product" "products/%d/")
         (StoragePath.mk "" "product" 42 "") "cert.pdf" 60) [])
    = [PresignPutObject
         (s3.PutObjectInput.mk "mybucket" "/svc/products/42/cert.pdf" None "") 60].
Proof.
  destruct (C8_presign_expiry (obligingSdk []) {[1%positive := exampleConfig]}
              (AddCatalog exampleManager "product" "products/%d/")
              (StoragePath.mk "" "product" 42 "") "cert.pdf" []
              exampleConfig "/svc/products/42/")
    as (Hzero & Hpos & _); [discriminate|reflexivity|reflexivity|].
  split; [exact Hzero|]. apply (Hpos 60). lia.
Defined.

(** ** Listing *)

(** Every listed key that is present yields one raw-form URL, in order. *)
Lemma fileURLs_raw (c : Config.t) (contents : list types.Object) :
  fileURLs c contents
  = Done (map (fun key => Config.Endpoint c +:+ "/" +:+ Config.Name c +:+ "/" +:+ key)
            (omap types.ObjectKey contents)).
Proof.
  induction contents as [|obj contents IH]; [reflexivity|].
  cbn [fileURLs omap list_omap]. destruct (types.ObjectKey obj) as [key|].
  - rewrite Sprintf_s_s_s, IH. reflexivity.
  - exact IH.
Qed.

(** C9: GetFiles returns one URL per listed object whose key is present,
    each the endpoint, the bucket name and the key joined by ['/']; objects
    with a nil key are skipped and the error is nil. The CDN setting does
    not occur in the result, configured or not. *)
Theorem C9_GetFiles_raw_urls (h : handler) (σ : heap) (r : s3Manager)
    (prefix : string) (tr : list call) (c : Config.t)
    (contents : list types.Object) :
  σ !! cfg r = Some c ->
  h tr (ListObjectsV2 (s3.ListObjectsV2Input.mk (Config.Name c) prefix))
  = inr (s3.ListObjectsV2Output.mk contents) ->
  run h (GetFiles σ r prefix) tr
  = (Done
       (map (fun key => Config.Endpoint c +:+ "/" +:+ Config.Name c +:+ "/" +:+ key)
          (omap types.ObjectKey contents),
        None),
     tr ++ [ListObjectsV2 (s3.ListObjectsV2Input.mk (Config.Name c) prefix)]).
Proof.
  intros Hcfg Hlist. unfold GetFiles.
  read_config Hcfg.
  rewrite run_Vis, Hlist. cbn [s3.ListObjectsV2Output.Contents].
  rewrite fileURLs_raw. reflexivity.
Qed.

Lemma C9_GetFiles_raw_urls_witness :
  run (obligingSdk [types.Build_Object (Some "/svc/a.txt");
                    types.Build_Object None;
                    types.Build_Object (Some "/svc/b.txt")])
    (GetFiles {[1%positive := exampleCdnConfig]} exampleManager "/svc/") []
  = (Done (["https://s3.example.com/mybucket//svc/a.txt";
            "https://s3.example.com/mybucket//svc/b.txt"], None),
     [ListObjectsV2 (s3.ListObjectsV2Input.mk "mybucket" "/svc/")]).
Proof.
  apply (C9_GetFiles_raw_urls
           (obligingSdk [types.Build_Object (Some "/svc/a.txt");
                         types.Build_Object None;
                         types.Build_Object (Some "/svc/b.txt")])
           {[1%positive := exampleCdnConfig]} exampleManager "/svc/" []
           exampleCdnConfig
           [types.Build_Object (Some "/svc/a.txt");
            types.Build_Object None;
            types.Build_Object (Some "/svc/b.txt")]);
    reflexivity.
Defined.

(** ** Deletion with an unregistered catalog type *)

Lemma listing_whole_bucket (keys : list string) :
  listing keys "" = s3.ListObjectsV2Output.mk (map (fun k => types.Build_Object (Some k)) keys).
Proof.
  unfold listing. f_equal. f_equal.
  induction keys as [|k keys IH]; [reflexivity|].
  cbn [List.filter]. rewrite IH. now destruct k.
Qed.

(** C10: for an unregistered CatalogType and an empty file name the
    listing that DeleteFiles issues has the empty prefix, whatever the
    configured RootCatalog is; when the SDK answers with the keys that start
    with that prefix, the bulk delete names every key of the bucket. *)
Theorem C10_unregistered_delete_targets_bucket (h : handler) (σ : heap)
    (r : s3Manager) (storagePath : StoragePath.t) (tr : list call)
    (c : Config.t) (keys : list string) :
  σ !! cfg r = Some c ->
  storagePaths r !! StoragePath.CatalogType storagePath = None ->
  h tr (ListObjectsV2 (s3.ListObjectsV2Input.mk (Config.Name c) ""))
  = inr (listing keys "") ->
  snd (run h (DeleteFiles σ r storagePath "") tr)
  = tr ++ ListObjectsV2 (s3.ListObjectsV2Input.mk (Config.Name c) "")
       :: match keys with
          | [] => []
          | _ =>
              [DeleteObjects
                 (s3.DeleteObjectsInput.mk (Config.Name c)
                    (types.Build_Delete
                       (map (fun k => types.Build_ObjectIdentifier (Some k)) keys)
                       true))]
          end.
Proof.
  intros Hcfg Hmiss Hlist. unfold DeleteFiles.
  read_config Hcfg.
  rewrite GetCatalogPattern_unregistered
    by (cbn [StoragePath.setRootCatalog StoragePath.CatalogType]; exact Hmiss).
  cbn [lift]. rewrite string_app_nil_l, run_Vis, Hlist, listing_whole_bucket.
  destruct keys as [|k keys]; [reflexivity|].
  cbn [s3.ListObjectsV2Output.Contents map]. rewrite run_Vis.
  match goal with
  | |- context [h ?t (DeleteObjects ?i)] => destruct (h t (DeleteObjects i))
  end; cbn [run snd]; rewrite <- List.app_assoc, map_map; reflexivity.
Qed.

Lemma C10_unregistered_delete_targets_bucket_witness :
  snd (run (bucketSdk ["/other/b.txt"; "/svc/a.txt"])
         (DeleteFiles {[1%positive := exampleConfig]} exampleManager
            (StoragePath.mk "" "product" 42 "") "") [])
  = [ListObjectsV2 (s3.ListObjectsV2Input.mk "mybucket" "");
     DeleteObjects
       (s3.DeleteObjectsInput.mk "mybucket"
          (types.Build_Delete
             [types.Build_ObjectIdentifier (Some "/other/b.txt");
              types.Build_ObjectIdentifier (Some "/svc/a.txt")]
             true))].
Proof.
  apply (C10_unregistered_delete_targets_bucket
           (bucketSdk ["/other/b.txt"; "/svc/a.txt"])
           {[1%positive := exampleConfig]} exampleManager
           (StoragePath.mk "" "product" 42 "") [] exampleConfig
           ["/other/b.txt"; "/svc/a.txt"]);
    reflexivity.
Defined.

(** ** Construction in test mode *)

Lemma run_NewS3Manager (h : handler) (σ : heap) (l : loc) (c : Config.t)
    (isTestServer : bool) (tr : list call) :
  σ !! l = Some c ->
  ∃ res tr',
    run h (NewS3Manager σ l isTestServer) tr
    = (Done (if isTestServer
             then <[l := Config.appendRootCatalog "test/" c]> σ
             else σ, res), tr').
Proof.
  intros Hl. unfold NewS3Manager. rewrite (deref_Some _ _ _ Hl). cbn [lift].
  destruct isTestServer.
  - rewrite (deref_Some _ _ (Config.appendRootCatalog "test/" c))
      by apply lookup_insert_eq.
    cbn [lift]. rewrite run_Vis.
    destruct (h tr _) as [err|bucketCfg]; eexists _, _; reflexivity.
  - rewrite (deref_Some _ _ _ Hl). cbn [lift]. rewrite run_Vis.
    destruct (h tr _) as [err|bucketCfg]; eexists _, _; reflexivity.
Qed.

(** Each construction in test mode adds one segment to the object behind
    the pointer, so [n] constructions on one object add [n]. *)
Lemma construct_test_mode (h : handler) (l : loc) (n : nat) :
  ∀ (σ : heap) (c : Config.t) (tr : list call),
    σ !! l = Some c ->
    rootCatalogAt l (run h (construct n σ l true) tr)
    = Some (Config.RootCatalog c +:+ testSegments n).
Proof.
  induction n as [|n IH]; intros σ c tr Hl.
  - unfold rootCatalogAt. cbn [construct run fst testSegments].
    rewrite Hl. cbn. now rewrite string_app_nil_r.
  - cbn [construct]. rewrite run_pbind.
    destruct (run_NewS3Manager h σ l c true tr Hl) as (res & tr' & ->).
    cbn [fst].
    rewrite (IH _ (Config.appendRootCatalog "test/" c))
      by apply lookup_insert_eq.
    cbn [Config.appendRootCatalog Config.RootCatalog testSegments].
    now rewrite string_app_assoc.
Qed.

Lemma construct_plain_mode (h : handler) (l : loc) (n : nat) :
  ∀ (σ : heap) (c : Config.t) (tr : list call),
    σ !! l = Some c ->
    fst (run h (construct n σ l false) tr) = Done σ.
Proof.
  induction n as [|n IH]; intros σ c tr Hl; [reflexivity|].
  cbn [construct]. rewrite run_pbind.
  destruct (run_NewS3Manager h σ l c false tr Hl) as (res & tr' & ->).
  cbn [fst]. now apply (IH σ c).
Qed.

(** C2, as the code has it: a construction call with the test-mode flag
    set appends exactly one "test/" segment to the RootCatalog of the Config
    object it is given, writing through the pointer, so n calls on the same
    object leave n segments; with the flag unset the heap, and RootCatalog
    with it, is unchanged. *)
Theorem C2_one_segment_per_construction (h : handler) (σ : heap) (l : loc)
    (c : Config.t) (tr : list call) :
  σ !! l = Some c ->
  rootCatalogAt l (run h (construct 1 σ l true) tr)
  = Some (Config.RootCatalog c +:+ "test/")
  ∧ (∀ n : nat,
        rootCatalogAt l (run h (construct n σ l true) tr)
        = Some (Config.RootCatalog c +:+ testSegments n))
  ∧ (∀ n : nat, fst (run h (construct n σ l false) tr) = Done σ).
Proof.
  intros Hl. split; [|split].
  - exact (construct_test_mode h l 1 σ c tr Hl).
  - intros n. now apply construct_test_mode.
  - intros n. now apply (construct_plain_mode h l n σ c).
Qed.

Lemma C2_one_segment_per_construction_witness :
  rootCatalogAt 1 (run (obligingSdk [])
                     (construct 1 {[1%positive := exampleConfig]} 1 true) [])
  = Some "/svc/test/"
  ∧ rootCatalogAt 1 (run (obligingSdk [])
                       (construct 3 {[1%positive := exampleConfig]} 1 true) [])
    = Some "/svc/test/test/test/"
  ∧ rootCatalogAt 1 (run (obligingSdk [])
                       (construct 3 {[1%positive := exampleConfig]} 1 false) [])
    = Some "/svc/".
Proof.
  destruct (C2_one_segment_per_construction (obligingSdk [])
              {[1%positive := exampleConfig]} 1 exampleConfig [])
    as (Hone & Hmany & Hplain); [reflexivity|].
  split; [exact Hone|]. split; [exact (Hmany 3%nat)|].
  unfold rootCatalogAt. rewrite (Hplain 3%nat). reflexivity.
Defined.

(** The claim C2 that the appending does not accumulate fails: two
    constructions in test mode on the same Config object leave two
    segments, not one. *)
Lemma C2_same_config_twice :
  rootCatalogAt 1 (run (obligingSdk [])
                     (construct 2 {[1%positive := exampleConfig]} 1 true) [])
  = Some "/svc/test/test/"
  ∧ rootCatalogAt 1 (run (obligingSdk [])
                       (construct 2 {[1%positive := exampleConfig]} 1 true) [])
    ≠ Some ("/svc/" +:+ "test/").
Proof.
  assert (rootCatalogAt 1 (run (obligingSdk [])
                             (construct 2 {[1%positive := exampleConfig]} 1 true) [])
          = Some "/svc/test/test/") as Hres by (vm_compute; reflexivity).
  split; [exact Hres|]. rewrite Hres. discriminate.
Qed.

(** * Further properties of the code *)

(** ** Uploads *)

Lemma GetObjectURL_resolved (σ : heap) (r : s3Manager)
    (storagePath : StoragePath.t) (fileName : string) (c : Config.t)
    (dir : string) :
  fileName ≠ "" ->
  σ !! cfg r = Some c ->
  GetCatalogPattern r
    (StoragePath.setRootCatalog (Config.RootCatalog c) storagePath) = Done dir ->
  GetObjectURL σ r storagePath fileName
  = Done
      (if decide (Config.CDN c = "") then
         Config.Endpoint c +:+ "/" +:+ Config.Name c +:+ "/" +:+ dir +:+ fileName
       else Config.CDN c +:+ "/" +:+ dir +:+ fileName,
       None).
Proof.
  intros Hname Hcfg Hdir. unfold GetObjectURL.
  destruct (decide (fileName = "")) as [|_]; [contradiction|].
  resolve_dir Hcfg Hdir.
  destruct (decide (Config.CDN c = "")) as [Hcdn|Hcdn].
  - destruct (decide (Config.CDN c ≠ "")) as [|_]; [contradiction|].
    now rewrite Sprintf_s_s_s.
  - destruct (decide (Config.CDN c ≠ "")) as [_|]; [|contradiction].
    now rewrite Sprintf_s_s.
Qed.

Lemma setRootCatalog_twice (root root' : string) (p : StoragePath.t) :
  StoragePath.setRootCatalog root (StoragePath.setRootCatalog root' p)
  = StoragePath.setRootCatalog root p.
Proof. reflexivity. Qed.

(** X1: PutFile on valid data whose upload succeeds: the run makes exactly one
    SDK call, a PutObject into the configured bucket with the key
    [dir + name], the caller's stream as body and the public-read ACL, and
    returns the object URL (CDN form or raw form) for that same key. *)
Theorem PutFile_uploads_and_returns_url (h : handler) (σ : heap)
    (r : s3Manager) (storagePath : StoragePath.t) (d : BucketFile.t)
    (stream : ReadSeeker) (tr : list call) (c : Config.t) (dir : string) :
  BucketFile.File d = Some stream ->
  BucketFile.Name d ≠ "" ->
  σ !! cfg r = Some c ->
  GetCatalogPattern r
    (StoragePath.setRootCatalog (Config.RootCatalog c) storagePath) = Done dir ->
  h tr (PutObject
          (s3.PutObjectInput.mk (Config.Name c) (dir +:+ BucketFile.Name d)
             (Some stream) types.ObjectCannedACLPublicRead)) = None ->
  run h (PutFile σ r storagePath (Some d)) tr
  = (Done
       (if decide (Config.CDN c = "") then
          Config.Endpoint c +:+ "/" +:+ Config.Name c +:+ "/"
          +:+ dir +:+ BucketFile.Name d
        else Config.CDN c +:+ "/" +:+ dir +:+ BucketFile.Name d,
        None),
     tr ++ [PutObject
              (s3.PutObjectInput.mk (Config.Name c) (dir +:+ BucketFile.Name d)
                 (Some stream) types.ObjectCannedACLPublicRead)]).
Proof.
  intros Hfile Hname Hcfg Hdir Hput. unfold PutFile.
  destruct (decide (BucketFile.File d = None ∨ BucketFile.Name d = ""))
    as [[Hnil|Hempty]|_]; [congruence|contradiction|].
  resolve_dir Hcfg Hdir. rewrite Hfile, run_Vis, Hput.
  rewrite (GetObjectURL_resolved σ r _ _ c dir Hname Hcfg)
    by (rewrite setRootCatalog_twice; exact Hdir).
  cbn [lift]. now destruct (decide (Config.CDN c = "")).
Qed.

Lemma PutFile_uploads_and_returns_url_witness :
  run (obligingSdk []) (PutFile {[1%positive := exampleCdnConfig]}
         (AddCatalog exampleManager "product" "products/%d/")
         (StoragePath.mk "ignored/" "product" 42 "")
         (Some (BucketFile.mk (Some "bytes") "cert.pdf"))) []
  = (Done ("https://cdn.example.com//svc/products/42/cert.pdf", None),
     [PutObject
        (s3.PutObjectInput.mk "mybucket" "/svc/products/42/cert.pdf"
           (Some "bytes") "public-read")]).
Proof.
  apply (PutFile_uploads_and_returns_url (obligingSdk [])
           {[1%positive := exampleCdnConfig]}
           (AddCatalog exampleManager "product" "products/%d/")
           (StoragePath.mk "ignored/" "product" 42 "")
           (BucketFile.mk (Some "bytes") "cert.pdf") "bytes" []
           exampleCdnConfig "/svc/products/42/");
    [reflexivity|discriminate|reflexivity|reflexivity|reflexivity].
Defined.

(** X2: The errors PutFile can return are the invalid-input error (nothing
    called) and the wrapped PutObject error (after the one upload call);
    the URL is empty with both. The branch that wraps an error of
    GetObjectURL is never taken, the name having been checked first. *)
Theorem PutFile_error_kinds (h : handler) (σ : heap) (r : s3Manager)
    (storagePath : StoragePath.t) (data : option BucketFile.t)
    (tr tr' : list call) (url : string) (e : error) :
  run h (PutFile σ r storagePath data) tr = (Done (url, Some e), tr') ->
  url = ""
  ∧ ((e = Errorf "PutFile: invalid file data" ∧ tr' = tr)
     ∨ ∃ (cause : error) (input : s3.PutObjectInput.t),
         e = ErrorfW "PutFile/PutObject: " cause
         ∧ tr' = tr ++ [PutObject input]).
Proof.
  unfold PutFile. destruct data as [d|].
  2:{ cbn [run]. intros [= <- <- <-]. split; [reflexivity|]. now left. }
  destruct (decide (BucketFile.File d = None ∨ BucketFile.Name d = ""))
    as [_|Hok].
  { cbn [run]. intros [= <- <- <-]. split; [reflexivity|]. now left. }
  assert (BucketFile.Name d ≠ "") as Hname by tauto.
  unfold deref. destruct (σ !! cfg r) as [c|] eqn:Hcfg; cbn [lift run];
    [|discriminate].
  destruct (GetCatalogPattern r _) as [dir|] eqn:Hdir; cbn [lift run];
    [|discriminate].
  destruct (h tr _) as [cause|] eqn:Hput.
  - cbn [run]. intros [= <- <- <-]. split; [reflexivity|]. right. eauto.
  - rewrite (GetObjectURL_resolved σ r _ _ c dir Hname Hcfg)
      by (rewrite setRootCatalog_twice; exact Hdir).
    cbn [lift run]. discriminate.
Qed.

Lemma PutFile_error_kinds_witness :
  "" = ""
  ∧ ((ErrorfW "PutFile/PutObject: " (SdkError "AccessDenied")
      = Errorf "PutFile: invalid file data"
      ∧ [PutObject (s3.PutObjectInput.mk "mybucket" "/svc/products/42/cert.pdf"
                      (Some "bytes") "public-read")] = [])
     ∨ ∃ (cause : error) (input : s3.PutObjectInput.t),
         ErrorfW "PutFile/PutObject: " (SdkError "AccessDenied")
         = ErrorfW "PutFile/PutObject: " cause
         ∧ [PutObject (s3.PutObjectInput.mk "mybucket" "/svc/products/42/cert.pdf"
                         (Some "bytes") "public-read")]
           = [] ++ [PutObject input]).
Proof.
  apply (PutFile_error_kinds
           (scriptedSdk (inr (aws.LoadedConfig 1))
              (inr (s3.ListObjectsV2Output.mk []))
              (Some (SdkError "AccessDenied")) None (inr "https://signed/"))
           {[1%positive := exampleConfig]}
           (AddCatalog exampleManager "product" "products/%d/")
           (StoragePath.mk "" "product" 42 "")
           (Some (BucketFile.mk (Some "bytes") "cert.pdf")) []).
  reflexivity.
Defined.

(** X3: The RootCatalog a caller puts into the StoragePath has no effect on
    PutFile, DeleteFiles, GetUploadPresignedURL and GetObjectURL: each
    overwrites it with the configured one before resolving the path. *)
Theorem caller_RootCatalog_is_overwritten (σ : heap) (r : s3Manager)
    (storagePath : StoragePath.t) (root fileName : string)
    (data : option BucketFile.t) (expireTime : Z) :
  GetObjectURL σ r (StoragePath.setRootCatalog root storagePath) fileName
  = GetObjectURL σ r storagePath fileName
  ∧ PutFile σ r (StoragePath.setRootCatalog root storagePath) data
    = PutFile σ r storagePath data
  ∧ DeleteFiles σ r (StoragePath.setRootCatalog root storagePath) fileName
    = DeleteFiles σ r storagePath fileName
  ∧ GetUploadPresignedURL σ r (StoragePath.setRootCatalog root storagePath)
      fileName expireTime
    = GetUploadPresignedURL σ r storagePath fileName expireTime.
Proof. repeat split; reflexivity. Qed.

(** X4: With a CatalogType that is not registered (the empty one included)
    PutFile uploads to the bare file name: the key carries neither a
    directory nor the configured RootCatalog. *)
Theorem PutFile_unregistered_key_is_file_name (h : handler) (σ : heap)
    (r : s3Manager) (storagePath : StoragePath.t) (d : BucketFile.t)
    (stream : ReadSeeker) (tr : list call) (c : Config.t) :
  BucketFile.File d = Some stream ->
  BucketFile.Name d ≠ "" ->
  σ !! cfg r = Some c ->
  storagePaths r !! StoragePath.CatalogType storagePath = None ->
  ∃ rest : list call,
    snd (run h (PutFile σ r storagePath (Some d)) tr)
    = tr ++ PutObject
              (s3.PutObjectInput.mk (Config.Name c) (BucketFile.Name d)
                 (Some stream) types.ObjectCannedACLPublicRead) :: rest.
Proof.
  intros Hfile Hname Hcfg Hmiss. unfold PutFile.
  destruct (decide (BucketFile.File d = None ∨ BucketFile.Name d = ""))
    as [[Hnil|Hempty]|_]; [congruence|contradiction|].
  read_config Hcfg.
  rewrite GetCatalogPattern_unregistered
    by (cbn [StoragePath.setRootCatalog StoragePath.CatalogType]; exact Hmiss).
  cbn [lift]. rewrite string_app_nil_l, Hfile, run_Vis.
  destruct (h tr _) as [cause|].
  - exists []. reflexivity.
  - rewrite (GetObjectURL_resolved σ r _ _ c "" Hname Hcfg)
      by (apply GetCatalogPattern_unregistered;
          cbn [StoragePath.setRootCatalog StoragePath.CatalogType]; exact Hmiss).
    cbn [lift]. exists []. now destruct (decide (Config.CDN c = "")).
Qed.

Lemma PutFile_unregistered_key_is_file_name_witness :
  ∃ rest : list call,
    snd (run (obligingSdk []) (PutFile {[1%positive := exampleConfig]}
           exampleManager (StoragePath.mk "" "" 0 "")
           (Some (BucketFile.mk (Some "bytes") "logo.png"))) [])
    = [] ++ PutObject
              (s3.PutObjectInput.mk "mybucket" "logo.png" (Some "bytes")
                 "public-read") :: rest.
Proof.
  apply (PutFile_unregistered_key_is_file_name (obligingSdk [])
           {[1%positive := exampleConfig]} exampleManager
           (StoragePath.mk "" "" 0 "")
           (BucketFile.mk (Some "bytes") "logo.png") "bytes" [] exampleConfig);
    [reflexivity|discriminate|reflexivity|reflexivity].
Defined.

(** ** The catalog registry *)

Lemma s3Manager_eq (r r' : s3Manager) :
  client r = client r' -> cfg r = cfg r' -> storagePaths r = storagePaths r' ->
  r = r'.
Proof. destruct r, r'. cbn. now intros -> -> ->. Qed.

(** X5: Registering a catalog type again replaces its pattern: the manager is
    the one a single registration of the later pattern gives, and the
    resolver formats with the later pattern. *)
Theorem AddCatalog_last_registration_wins (r : s3Manager) (t : CatalogType)
    (first later root custom : string) (n : Z) :
  AddCatalog (AddCatalog r t first) t later = AddCatalog r t later
  ∧ GetCatalogPattern (AddCatalog (AddCatalog r t first) t later)
      (StoragePath.mk root t n custom)
    = formatted (fmt.Sprintf (root +:+ later) [fmt.Int64 n]).
Proof.
  split.
  - apply s3Manager_eq; [reflexivity..|]. cbn. apply insert_insert_eq.
  - apply (GetCatalogPattern_registered _ (StoragePath.mk root t n custom)).
    apply AddCatalog_lookup.
Qed.

(** X6: Registering a catalog type leaves every other type as it was: the
    resolver answers for them as before, and two registrations of
    different types can be made in either order. *)
Theorem AddCatalog_other_types_untouched (r : s3Manager) (t t' : CatalogType)
    (pathPattern pathPattern' : string) (storagePath : StoragePath.t) :
  t ≠ t' ->
  StoragePath.CatalogType storagePath = t' ->
  GetCatalogPattern (AddCatalog r t pathPattern) storagePath
  = GetCatalogPattern r storagePath
  ∧ AddCatalog (AddCatalog r t pathPattern) t' pathPattern'
    = AddCatalog (AddCatalog r t' pathPattern') t pathPattern.
Proof.
  intros Hne Ht'. split.
  - unfold GetCatalogPattern. rewrite Ht'.
    now rewrite (AddCatalog_lookup_ne r t t' pathPattern Hne).
  - apply s3Manager_eq; [reflexivity..|]. cbn.
    now apply insert_insert_ne.
Qed.

Lemma AddCatalog_other_types_untouched_witness :
  GetCatalogPattern (AddCatalog exampleManager "product" "products/%d/")
    (StoragePath.mk "/svc/" "user" 7 "")
  = GetCatalogPattern exampleManager (StoragePath.mk "/svc/" "user" 7 "")
  ∧ AddCatalog (AddCatalog exampleManager "product" "products/%d/")
      "user" "users/%d/"
    = AddCatalog (AddCatalog exampleManager "user" "users/%d/")
        "product" "products/%d/".
Proof.
  apply (AddCatalog_other_types_untouched exampleManager "product" "user"
           "products/%d/" "users/%d/" (StoragePath.mk "/svc/" "user" 7 ""));
    [discriminate|reflexivity].
Defined.

(** X7: A pattern without any slot does not give a clean prefix: EntityID is
    still passed to the formatter, which reports it as an extra operand
    after the pattern. *)
Theorem GetCatalogPattern_pattern_without_slot (r : s3Manager)
    (t : CatalogType) (root pathPattern custom : string) (n : Z) :
  percentFree root = true ->
  percentFree pathPattern = true ->
  GetCatalogPattern (AddCatalog r t pathPattern)
    (StoragePath.mk root t n custom)
  = Done (root +:+ pathPattern
          +:+ "%!(EXTRA int64=" +:+ fmt.fmtInteger n +:+ ")").
Proof.
  intros Hroot Hpat.
  rewrite (GetCatalogPattern_literal_root _ t root pathPattern)
    by (apply AddCatalog_lookup || exact Hroot).
  unfold fmt.Sprintf. rewrite <- (string_app_nil_r pathPattern) at 1.
  rewrite doPrintf_literal by exact Hpat.
  reflexivity.
Qed.

Lemma GetCatalogPattern_pattern_without_slot_witness :
  GetCatalogPattern (AddCatalog exampleManager "static" "static/")
    (StoragePath.mk "/svc/" "static" 0 "")
  = Done "/svc/static/%!(EXTRA int64=0)".
Proof.
  apply (GetCatalogPattern_pattern_without_slot exampleManager "static"
           "/svc/" "static/" "" 0); reflexivity.
Defined.

Lemma string_length_app (s t : string) :
  String.length (s +:+ t) = (String.length s + String.length t)%nat.
Proof.
  induction s as [|c s IH]; [reflexivity|].
  rewrite string_app_cons. cbn [String.length]. now rewrite IH.
Qed.

Lemma string_app_inv_tail (s s' t : string) : s +:+ t = s' +:+ t -> s = s'.
Proof.
  revert s'. induction s as [|c s IH]; intros [|c' s'] Heq.
  - reflexivity.
  - apply (f_equal String.length) in Heq.
    rewrite string_app_nil_l, string_app_cons in Heq.
    cbn [String.length] in Heq. rewrite string_length_app in Heq. lia.
  - apply (f_equal String.length) in Heq.
    rewrite string_app_nil_l, string_app_cons in Heq.
    cbn [String.length] in Heq. rewrite string_length_app in Heq. lia.
  - rewrite !string_app_cons in Heq. injection Heq as -> Heq.
    f_equal. now apply IH.
Qed.

(** X8: Under a one-slot pattern two entities never share a directory:
    different entity ids resolve to different prefixes. *)
Theorem GetCatalogPattern_separates_entities (r : s3Manager)
    (t : CatalogType) (root pre post custom custom' : string) (n n' : Z) :
  percentFree root = true ->
  percentFree pre = true ->
  percentFree post = true ->
  n ≠ n' ->
  GetCatalogPattern (AddCatalog r t (pre +:+ "%d" +:+ post))
    (StoragePath.mk root t n custom)
  ≠ GetCatalogPattern (AddCatalog r t (pre +:+ "%d" +:+ post))
      (StoragePath.mk root t n' custom').
Proof.
  intros Hroot Hpre Hpost Hne.
  rewrite !(GetCatalogPattern_literal_root _ t root (pre +:+ "%d" +:+ post))
    by (apply AddCatalog_lookup || exact Hroot).
  rewrite !(Sprintf_one_slot "" pre post) by (reflexivity || assumption).
  cbn [fmap option_fmap option_map formatted]. rewrite !string_app_nil_l.
  intros [= Heq]. apply Hne.
  apply (inj (String.append root)), (inj (String.append pre)) in Heq.
  apply string_app_inv_tail in Heq.
  unfold fmt.fmtInteger in Heq. now apply (inj pretty) in Heq.
Qed.

Lemma GetCatalogPattern_separates_entities_witness :
  GetCatalogPattern (AddCatalog exampleManager "product" "products/%d/")
    (StoragePath.mk "/svc/" "product" 1 "")
  ≠ GetCatalogPattern (AddCatalog exampleManager "product" "products/%d/")
      (StoragePath.mk "/svc/" "product" 12 "").
Proof.
  apply (GetCatalogPattern_separates_entities exampleManager "product"
           "/svc/" "products/" "/" "" "" 1 12);
    [reflexivity|reflexivity|reflexivity|discriminate].
Defined.

Lemma prefix_app (p s : string) : String.prefix p (p +:+ s) = true.
Proof.
  induction p as [|c p IH]; [now destruct s|].
  rewrite string_app_cons. cbn [String.prefix].
  now destruct (ascii_dec c c).
Qed.

(** X9: For a registered catalog type and a root without ['%'] the resolved
    prefix starts with the root it was given: the keys of registered
    catalogs stay inside the root catalog. *)
Theorem GetCatalogPattern_stays_under_root (r : s3Manager) (t : CatalogType)
    (root pathPattern custom dir : string) (n : Z) :
  storagePaths r !! t = Some pathPattern ->
  percentFree root = true ->
  GetCatalogPattern r (StoragePath.mk root t n custom) = Done dir ->
  String.prefix root dir = true.
Proof.
  intros Hreg Hroot.
  rewrite (GetCatalogPattern_literal_root r t root pathPattern) by assumption.
  destruct (fmt.Sprintf pathPattern [fmt.Int64 n]) as [s|]; [|discriminate].
  intros [= <-]. apply prefix_app.
Qed.

Lemma GetCatalogPattern_stays_under_root_witness :
  String.prefix "/svc/" "/svc/%!s(int64=7)" = true.
Proof.
  apply (GetCatalogPattern_stays_under_root exampleManager PathCustomCatalog
           "/svc/" "%s" "a/b/" "/svc/%!s(int64=7)" 7); reflexivity.
Defined.

(** ** Construction *)

(** X10: NewS3Manager on a Config makes one SDK call, LoadDefaultConfig with the
    endpoint, region and static credentials of the Config and an empty
    session token. When it succeeds the manager holds the pointer it was
    given and a registry with the single entry custom_catalog -> "%s";
    when it fails the manager is nil and the error is wrapped. *)
Theorem NewS3Manager_result (h : handler) (σ : heap) (l : loc) (c : Config.t)
    (isTestServer : bool) (tr : list call) :
  σ !! l = Some c ->
  run h (NewS3Manager σ l isTestServer) tr
  = (Done
       (if isTestServer
        then <[l := Config.appendRootCatalog "test/" c]> σ
        else σ,
        match
          h tr (LoadDefaultConfig (Config.Endpoint c) (Config.Region c)
                  (Config.AccessKey c) (Config.SecretKey c) "")
        with
        | inl err =>
            (None, Some (ErrorfW "NewS3Manager/LoadDefaultConfig: " err))
        | inr bucketCfg =>
            (Some {| client := s3.NewFromConfig bucketCfg;
                     cfg := l;
                     storagePaths := {[PathCustomCatalog := "%s"]} |},
             None)
        end),
     tr ++ [LoadDefaultConfig (Config.Endpoint c) (Config.Region c)
              (Config.AccessKey c) (Config.SecretKey c) ""]).
Proof.
  intros Hl. unfold NewS3Manager. read_config Hl.
  destruct isTestServer.
  - rewrite (deref_Some _ _ (Config.appendRootCatalog "test/" c))
      by apply lookup_insert_eq.
    cbn [lift]. rewrite run_Vis.
    cbn [Config.appendRootCatalog Config.Endpoint Config.Region
         Config.AccessKey Config.SecretKey].
    now destruct (h tr _) as [err|bucketCfg].
  - read_config Hl. rewrite run_Vis. now destruct (h tr _) as [err|bucketCfg].
Qed.

Lemma NewS3Manager_result_witness :
  run (scriptedSdk (inl (SdkError "no credentials"))
         (inr (s3.ListObjectsV2Output.mk [])) None None (inr "https://signed/"))
    (NewS3Manager {[1%positive := exampleConfig]} 1 false) []
  = (Done ({[1%positive := exampleConfig]},
           (None,
            Some (ErrorfW "NewS3Manager/LoadDefaultConfig: "
                    (SdkError "no credentials")))),
     [LoadDefaultConfig "https://s3.example.com" "us-east-1" "ak" "sk" ""]).
Proof.
  apply (NewS3Manager_result
           (scriptedSdk (inl (SdkError "no credentials"))
              (inr (s3.ListObjectsV2Output.mk [])) None None
              (inr "https://signed/"))
           {[1%positive := exampleConfig]} 1 exampleConfig false []).
  reflexivity.
Defined.

(** X11: Whatever a construction call returns, a failure of LoadDefaultConfig
    included, the heap differs from the one before at most in the
    RootCatalog of the Config it was given: that field has "test/" appended
    in test mode, every other field and every other object is as before. *)
Theorem NewS3Manager_touches_only_RootCatalog (h : handler) (σ σ' : heap)
    (l : loc) (c : Config.t) (isTestServer : bool) (tr tr' : list call)
    (res : option s3Manager * option error) :
  σ !! l = Some c ->
  run h (NewS3Manager σ l isTestServer) tr = (Done (σ', res), tr') ->
  (∀ l' : loc, l' ≠ l -> σ' !! l' = σ !! l')
  ∧ σ' !! l
    = Some (Config.mk (Config.Endpoint c) (Config.Region c)
              (Config.AccessKey c) (Config.SecretKey c) (Config.Name c)
              (Config.RootCatalog c +:+ (if isTestServer then "test/" else ""))
              (Config.CDN c) (Config.PresignedURLExpireTime c)).
Proof.
  intros Hl Hrun.
  destruct (run_NewS3Manager h σ l c isTestServer tr Hl) as (res0 & tr0 & Heq).
  rewrite Heq in Hrun. injection Hrun as <- _ _.
  destruct isTestServer.
  - split.
    + intros l' Hne. now apply lookup_insert_ne.
    + apply lookup_insert_eq.
  - split; [reflexivity|]. rewrite Hl, string_app_nil_r. now destruct c.
Qed.

Lemma NewS3Manager_touches_only_RootCatalog_witness :
  (∀ l' : loc, l' ≠ 1%positive ->
     (<[1%positive := Config.appendRootCatalog "test/" exampleConfig]>
        ({[1%positive := exampleConfig]} : gmap positive Config.t)) !! l'
     = ({[1%positive := exampleConfig]} : gmap positive Config.t) !! l')
  ∧ (<[1%positive := Config.appendRootCatalog "test/" exampleConfig]>
       ({[1%positive := exampleConfig]} : gmap positive Config.t)) !! 1%positive
    = Some (Config.mk "https://s3.example.com" "us-east-1" "ak" "sk"
              "mybucket" ("/svc/" +:+ "test/") "" 900).
Proof.
  eapply (NewS3Manager_touches_only_RootCatalog
           (scriptedSdk (inl (SdkError "no credentials"))
              (inr (s3.ListObjectsV2Output.mk [])) None None
              (inr "https://signed/"))
           {[1%positive := exampleConfig]} _ 1 exampleConfig true [] _
           (None, Some (ErrorfW "NewS3Manager/LoadDefaultConfig: "
                          (SdkError "no credentials"))));
    reflexivity.
Defined.

(** X12: With a nil Config pointer NewS3Manager panics on the first field it
    reads, in either mode, before any SDK call. *)
Theorem NewS3Manager_nil_config_panics (h : handler) (σ : heap) (l : loc)
    (isTestServer : bool) (tr : list call) :
  σ !! l = None ->
  run h (NewS3Manager σ l isTestServer) tr = (Halted NilDereference, tr).
Proof.
  intros Hl. unfold NewS3Manager, deref. now rewrite Hl.
Qed.

Lemma NewS3Manager_nil_config_panics_witness :
  run (obligingSdk []) (NewS3Manager {[1%positive := exampleConfig]} 2 true) []
  = (Halted NilDereference, []).
Proof.
  apply (NewS3Manager_nil_config_panics (obligingSdk [])
           {[1%positive := exampleConfig]} 2 true []).
  reflexivity.
Defined.

Lemma percentFree_app (s t : string) :
  percentFree s = true -> percentFree t = true -> percentFree (s +:+ t) = true.
Proof.
  intros Hs Ht. induction s as [|c s IH]; [exact Ht|].
  rewrite string_app_cons. cbn [percentFree] in *.
  destruct (decide (c = "%"%char)); [discriminate|]. now apply IH.
Qed.

(** X13: Managers read the Config through the pointer at every call. For
    a catalog type that is registered in the manager, a RootCatalog without
    ['%'] and a non-empty file name: after a test-mode construction on a
    Config object, every manager that holds this object, one built earlier
    included, returns object URLs whose key is the old root followed by
    "test/", then the pattern formatted with EntityID and the file name. *)
Theorem test_mode_moves_keys_of_sharing_managers (h : handler) (σ σ' : heap)
    (l : loc) (c : Config.t) (tr tr' : list call)
    (res : option s3Manager * option error) (r : s3Manager) (t : CatalogType)
    (pathPattern formattedPattern root custom fileName : string) (n : Z) :
  σ !! l = Some c ->
  run h (NewS3Manager σ l true) tr = (Done (σ', res), tr') ->
  cfg r = l ->
  storagePaths r !! t = Some pathPattern ->
  fmt.Sprintf pathPattern [fmt.Int64 n] = Some formattedPattern ->
  percentFree (Config.RootCatalog c) = true ->
  fileName ≠ "" ->
  GetObjectURL σ' r (StoragePath.mk root t n custom) fileName
  = Done
      ((if decide (Config.CDN c = "")
        then Config.Endpoint c +:+ "/" +:+ Config.Name c
        else Config.CDN c)
       +:+ "/" +:+ (Config.RootCatalog c +:+ "test/")
       +:+ formattedPattern +:+ fileName,
       None).
Proof.
  intros Hl Hrun Hr Hreg Hfmt Hroot Hname.
  destruct (run_NewS3Manager h σ l c true tr Hl) as (res0 & tr0 & Heq).
  rewrite Heq in Hrun. injection Hrun as <- _ _.
  assert ((<[l := Config.appendRootCatalog "test/" c]> σ) !! cfg r
          = Some (Config.appendRootCatalog "test/" c)) as Hcfg
    by (rewrite Hr; apply lookup_insert_eq).
  rewrite (GetObjectURL_resolved _ r _ _ _
             ((Config.RootCatalog c +:+ "test/") +:+ formattedPattern)
             Hname Hcfg).
  - cbn [Config.appendRootCatalog Config.CDN Config.Endpoint Config.Name].
    destruct (decide (Config.CDN c = "")); now rewrite !string_app_assoc.
  - unfold StoragePath.setRootCatalog.
    cbn [Config.appendRootCatalog Config.RootCatalog StoragePath.CatalogType
         StoragePath.EntityID StoragePath.CustomPath].
    rewrite (GetCatalogPattern_literal_root r t _ pathPattern)
      by (exact Hreg || (apply percentFree_app; [exact Hroot|reflexivity])).
    now rewrite Hfmt.
Qed.

Lemma test_mode_moves_keys_of_sharing_managers_witness :
  GetObjectURL (<[1%positive := Config.appendRootCatalog "test/" exampleConfig]>
                  {[1%positive := exampleConfig]})
    (AddCatalog exampleManager "product" "products/%d/")
    (StoragePath.mk "" "product" 42 "") "cert.pdf"
  = Done ("https://s3.example.com/mybucket//svc/test/products/42/cert.pdf",
          None).
Proof.
  eapply (test_mode_moves_keys_of_sharing_managers (obligingSdk [])
           {[1%positive := exampleConfig]} _ 1 exampleConfig [] _
           (Some exampleManager, None)
           (AddCatalog exampleManager "product" "products/%d/") "product"
           "products/%d/" "products/42/" "" "" "cert.pdf" 42);
    [reflexivity|reflexivity|reflexivity|reflexivity|reflexivity|reflexivity
    |discriminate].
Defined.

(** ** Deletion *)

(** X14: When the listing returns at least one object DeleteFiles makes one
    bulk delete, in quiet mode, on the configured bucket; it names one
    identifier per listed object, in listing order, with the object's key
    as it came (a nil key is passed on, not skipped). The result is nil when
    the delete succeeds and the wrapped error when it fails. *)
Theorem DeleteFiles_deletes_what_was_listed (h : handler) (σ : heap)
    (r : s3Manager) (storagePath : StoragePath.t) (fileName : string)
    (tr : list call) (c : Config.t) (dir : string) (obj : types.Object)
    (contents : list types.Object) :
  σ !! cfg r = Some c ->
  GetCatalogPattern r
    (StoragePath.setRootCatalog (Config.RootCatalog c) storagePath) = Done dir ->
  h tr (ListObjectsV2
          (s3.ListObjectsV2Input.mk (Config.Name c) (dir +:+ fileName)))
  = inr (s3.ListObjectsV2Output.mk (obj :: contents)) ->
  run h (DeleteFiles σ r storagePath fileName) tr
  = (Done
       match
         h (tr ++ [ListObjectsV2
                     (s3.ListObjectsV2Input.mk (Config.Name c) (dir +:+ fileName))])
           (DeleteObjects
              (s3.DeleteObjectsInput.mk (Config.Name c)
                 (types.Build_Delete
                    (map (fun item =>
                            types.Build_ObjectIdentifier (types.ObjectKey item))
                       (obj :: contents))
                    true)))
       with
       | Some e => Some (ErrorfW "DeleteFiles/DeleteObjects: " e)
       | None => None
       end,
     tr ++ [ListObjectsV2
              (s3.ListObjectsV2Input.mk (Config.Name c) (dir +:+ fileName));
            DeleteObjects
              (s3.DeleteObjectsInput.mk (Config.Name c)
                 (types.Build_Delete
                    (map (fun item =>
                            types.Build_ObjectIdentifier (types.ObjectKey item))
                       (obj :: contents))
                    true))]).
Proof.
  intros Hcfg Hdir Hlist. unfold DeleteFiles.
  resolve_dir Hcfg Hdir. rewrite run_Vis, Hlist.
  cbn [s3.ListObjectsV2Output.Contents]. rewrite run_Vis.
  match goal with
  | |- context [h ?t (DeleteObjects ?i)] => destruct (h t (DeleteObjects i))
  end; cbn [run]; now rewrite <- List.app_assoc.
Qed.

Lemma DeleteFiles_deletes_what_was_listed_witness :
  run (scriptedSdk (inr (aws.LoadedConfig 1))
         (inr (s3.ListObjectsV2Output.mk
                 [types.Build_Object (Some "/svc/products/42/cert.pdf");
                  types.Build_Object None]))
         None (Some (SdkError "AccessDenied")) (inr "https://signed/"))
    (DeleteFiles {[1%positive := exampleConfig]}
       (AddCatalog exampleManager "product" "products/%d/")
       (StoragePath.mk "" "product" 42 "") "cert.pdf") []
  = (Done (Some (ErrorfW "DeleteFiles/DeleteObjects: " (SdkError "AccessDenied"))),
     [ListObjectsV2
        (s3.ListObjectsV2Input.mk "mybucket" "/svc/products/42/cert.pdf");
      DeleteObjects
        (s3.DeleteObjectsInput.mk "mybucket"
           (types.Build_Delete
              [types.Build_ObjectIdentifier (Some "/svc/products/42/cert.pdf");
               types.Build_ObjectIdentifier None]
              true))]).
Proof.
  apply (DeleteFiles_deletes_what_was_listed
           (scriptedSdk (inr (aws.LoadedConfig 1))
              (inr (s3.ListObjectsV2Output.mk
                      [types.Build_Object (Some "/svc/products/42/cert.pdf");
                       types.Build_Object None]))
              None (Some (SdkError "AccessDenied")) (inr "https://signed/"))
           {[1%positive := exampleConfig]}
           (AddCatalog exampleManager "product" "products/%d/")
           (StoragePath.mk "" "product" 42 "") "cert.pdf" []
           exampleConfig "/svc/products/42/"
           (types.Build_Object (Some "/svc/products/42/cert.pdf"))
           [types.Build_Object None]);
    reflexivity.
Defined.

(** X15: When the listing fails DeleteFiles returns the wrapped listing error and
    stops: the listing is the only call of the run, nothing is deleted. *)
Theorem DeleteFiles_listing_failure_deletes_nothing (h : handler) (σ : heap)
    (r : s3Manager) (storagePath : StoragePath.t) (fileName : string)
    (tr : list call) (c : Config.t) (dir : string) (e : error) :
  σ !! cfg r = Some c ->
  GetCatalogPattern r
    (StoragePath.setRootCatalog (Config.RootCatalog c) storagePath) = Done dir ->
  h tr (ListObjectsV2
          (s3.ListObjectsV2Input.mk (Config.Name c) (dir +:+ fileName)))
  = inl e ->
  run h (DeleteFiles σ r storagePath fileName) tr
  = (Done (Some (ErrorfW "DeleteFiles/ListObjectsV2: " e)),
     tr ++ [ListObjectsV2
              (s3.ListObjectsV2Input.mk (Config.Name c) (dir +:+ fileName))]).
Proof.
  intros Hcfg Hdir Hlist. unfold DeleteFiles.
  resolve_dir Hcfg Hdir. now rewrite run_Vis, Hlist.
Qed.

Lemma DeleteFiles_listing_failure_deletes_nothing_witness :
  run (scriptedSdk (inr (aws.LoadedConfig 1)) (inl (SdkError "timeout"))
         None None (inr "https://signed/"))
    (DeleteFiles {[1%positive := exampleConfig]}
       (AddCatalog exampleManager "product" "products/%d/")
       (StoragePath.mk "" "product" 42 "") "") []
  = (Done (Some (ErrorfW "DeleteFiles/ListObjectsV2: " (SdkError "timeout"))),
     [ListObjectsV2 (s3.ListObjectsV2Input.mk "mybucket" "/svc/products/42/")]).
Proof.
  apply (DeleteFiles_listing_failure_deletes_nothing
           (scriptedSdk (inr (aws.LoadedConfig 1)) (inl (SdkError "timeout"))
              None None (inr "https://signed/"))
           {[1%positive := exampleConfig]}
           (AddCatalog exampleManager "product" "products/%d/")
           (StoragePath.mk "" "product" 42 "") "" []
           exampleConfig "/svc/products/42/" (SdkError "timeout"));
    reflexivity.
Defined.

Lemma listing_contains (keys : list string) (prefix key : string) :
  In key keys -> String.prefix prefix key = true ->
  In (types.Build_Object (Some key))
     (s3.ListObjectsV2Output.Contents (listing keys prefix)).
Proof.
  intros Hin Hpre. unfold listing. cbn [s3.ListObjectsV2Output.Contents].
  apply (in_map (fun k => types.Build_Object (Some k))).
  apply filter_In. now split.
Qed.

(** X16: DeleteFiles deletes by prefix, not by exact key: against a bucket whose
    listing returns the keys under the prefix, every key of the bucket that
    extends [dir + fileName] is named in the bulk delete, the key of the
    file itself and the keys that merely start like it alike. *)
Theorem DeleteFiles_deletes_every_key_with_the_prefix (h : handler)
    (σ : heap) (r : s3Manager) (storagePath : StoragePath.t)
    (fileName : string) (tr : list call) (c : Config.t) (dir : string)
    (keys : list string) (suffix : string) :
  σ !! cfg r = Some c ->
  GetCatalogPattern r
    (StoragePath.setRootCatalog (Config.RootCatalog c) storagePath) = Done dir ->
  h tr (ListObjectsV2
          (s3.ListObjectsV2Input.mk (Config.Name c) (dir +:+ fileName)))
  = inr (listing keys (dir +:+ fileName)) ->
  In ((dir +:+ fileName) +:+ suffix) keys ->
  ∃ input : s3.DeleteObjectsInput.t,
    In (DeleteObjects input) (snd (run h (DeleteFiles σ r storagePath fileName) tr))
    ∧ In (types.Build_ObjectIdentifier (Some ((dir +:+ fileName) +:+ suffix)))
         (types.Objects (s3.DeleteObjectsInput.Delete input)).
Proof.
  intros Hcfg Hdir Hlist Hkey.
  pose proof (listing_contains keys (dir +:+ fileName) _ Hkey
                (prefix_app (dir +:+ fileName) suffix)) as Hlisted.
  destruct (s3.ListObjectsV2Output.Contents (listing keys (dir +:+ fileName)))
    as [|obj contents] eqn:Hcontents; [destruct Hlisted|].
  assert (listing keys (dir +:+ fileName)
          = s3.ListObjectsV2Output.mk (obj :: contents)) as Hout
    by (destruct (listing keys (dir +:+ fileName)); cbn in Hcontents; congruence).
  rewrite Hout in Hlist.
  eexists. split.
  - unfold DeleteFiles. resolve_dir Hcfg Hdir. rewrite run_Vis, Hlist.
    cbn [s3.ListObjectsV2Output.Contents]. rewrite run_Vis.
    match goal with
    | |- context [h ?t (DeleteObjects ?i)] => destruct (h t (DeleteObjects i))
    end; cbn [run snd]; rewrite <- List.app_assoc;
      apply in_or_app; right; right; left; reflexivity.
  - cbn [s3.DeleteObjectsInput.Delete types.Objects].
    apply (in_map (fun item => types.Build_ObjectIdentifier (types.ObjectKey item))
             _ _ Hlisted).
Qed.

Lemma DeleteFiles_deletes_every_key_with_the_prefix_witness :
  ∃ input : s3.DeleteObjectsInput.t,
    In (DeleteObjects input)
       (snd (run (bucketSdk ["/svc/products/42/cert.pdf";
                             "/svc/products/42/cert.pdf.bak";
                             "/svc/products/42/other.pdf"])
               (DeleteFiles {[1%positive := exampleConfig]}
                  (AddCatalog exampleManager "product" "products/%d/")
                  (StoragePath.mk "" "product" 42 "") "cert.pdf") []))
    ∧ In (types.Build_ObjectIdentifier
            (Some (("/svc/products/42/" +:+ "cert.pdf") +:+ ".bak")))
         (types.Objects (s3.DeleteObjectsInput.Delete input)).
Proof.
  apply (DeleteFiles_deletes_every_key_with_the_prefix
           (bucketSdk ["/svc/products/42/cert.pdf";
                       "/svc/products/42/cert.pdf.bak";
                       "/svc/products/42/other.pdf"])
           {[1%positive := exampleConfig]}
           (AddCatalog exampleManager "product" "products/%d/")
           (StoragePath.mk "" "product" 42 "") "cert.pdf" []
           exampleConfig "/svc/products/42/"
           ["/svc/products/42/cert.pdf"; "/svc/products/42/cert.pdf.bak";
            "/svc/products/42/other.pdf"] ".bak");
    [reflexivity|reflexivity|reflexivity|].
  right. left. reflexivity.
Defined.

(** ** Presigned uploads and listing *)

(** X17: For a non-empty file name and any non-zero expireTime, a negative one
    included, GetUploadPresignedURL makes one presign request, for the key
    [dir + fileName] in the configured bucket with that expiry, and returns
    the URL of the request as it is, or the wrapped error with an empty
    URL. *)
Theorem GetUploadPresignedURL_result (h : handler) (σ : heap) (r : s3Manager)
    (storagePath : StoragePath.t) (fileName : string) (expireTime : Z)
    (tr : list call) (c : Config.t) (dir : string) :
  fileName ≠ "" ->
  expireTime ≠ 0 ->
  σ !! cfg r = Some c ->
  GetCatalogPattern r
    (StoragePath.setRootCatalog (Config.RootCatalog c) storagePath) = Done dir ->
  run h (GetUploadPresignedURL σ r storagePath fileName expireTime) tr
  = (Done
       match
         h tr (PresignPutObject
                 (s3.PutObjectInput.mk (Config.Name c) (dir +:+ fileName) None "")
                 expireTime)
       with
       | inl err =>
           ("", Some (ErrorfW
              "GetUploadPresignedURL/PresignPutObject: failed to create presigned request: "
              err))
       | inr url => (url, None)
       end,
     tr ++ [PresignPutObject
              (s3.PutObjectInput.mk (Config.Name c) (dir +:+ fileName) None "")
              expireTime]).
Proof.
  intros Hname Hexp Hcfg Hdir. unfold GetUploadPresignedURL.
  destruct (decide (fileName = "")) as [|_]; [contradiction|].
  resolve_dir Hcfg Hdir.
  destruct (decide (expireTime = 0)) as [|_]; [contradiction|].
  rewrite run_Vis. now destruct (h tr _) as [err|url].
Qed.

Lemma GetUploadPresignedURL_result_witness :
  run (obligingSdk []) (GetUploadPresignedURL {[1%positive := exampleConfig]}
         (AddCatalog exampleManager "product" "products/%d/")
         (StoragePath.mk "" "product" 42 "") "cert.pdf" (-5)) []
  = (Done ("https://signed//svc/products/42/cert.pdf", None),
     [PresignPutObject
        (s3.PutObjectInput.mk "mybucket" "/svc/products/42/cert.pdf" None "")
        (-5)]).
Proof.
  apply (GetUploadPresignedURL_result (obligingSdk [])
           {[1%positive := exampleConfig]}
           (AddCatalog exampleManager "product" "products/%d/")
           (StoragePath.mk "" "product" 42 "") "cert.pdf" (-5) []
           exampleConfig "/svc/products/42/");
    [discriminate|discriminate|reflexivity|reflexivity].
Defined.

(** X18: When the listing fails GetFiles returns no URLs and the wrapped
    error, after that one call. *)
Theorem GetFiles_listing_failure (h : handler) (σ : heap) (r : s3Manager)
    (prefix : string) (tr : list call) (c : Config.t) (e : error) :
  σ !! cfg r = Some c ->
  h tr (ListObjectsV2 (s3.ListObjectsV2Input.mk (Config.Name c) prefix))
  = inl e ->
  run h (GetFiles σ r prefix) tr
  = (Done ([], Some (ErrorfW "GetFiles/ListObjectsV2: " e)),
     tr ++ [ListObjectsV2 (s3.ListObjectsV2Input.mk (Config.Name c) prefix)]).
Proof.
  intros Hcfg Hlist. unfold GetFiles. read_config Hcfg.
  now rewrite run_Vis, Hlist.
Qed.

Lemma GetFiles_listing_failure_witness :
  run (scriptedSdk (inr (aws.LoadedConfig 1)) (inl (SdkError "timeout"))
         None None (inr "https://signed/"))
    (GetFiles {[1%positive := exampleConfig]} exampleManager "/svc/") []
  = (Done ([], Some (ErrorfW "GetFiles/ListObjectsV2: " (SdkError "timeout"))),
     [ListObjectsV2 (s3.ListObjectsV2Input.mk "mybucket" "/svc/")]).
Proof.
  apply (GetFiles_listing_failure
           (scriptedSdk (inr (aws.LoadedConfig 1)) (inl (SdkError "timeout"))
              None None (inr "https://signed/"))
           {[1%positive := exampleConfig]} exampleManager "/svc/" []
           exampleConfig (SdkError "timeout"));
    reflexivity.
Defined.

(** X19: Without a CDN host the two ways to a URL agree: the URL that
    GetObjectURL (and so PutFile) gives for a file is the URL that the loop
    of GetFiles gives for the object stored under that file's key. *)
Theorem object_url_matches_listing_without_cdn (σ : heap) (r : s3Manager)
    (storagePath : StoragePath.t) (fileName : string) (c : Config.t)
    (dir : string) :
  fileName ≠ "" ->
  σ !! cfg r = Some c ->
  GetCatalogPattern r
    (StoragePath.setRootCatalog (Config.RootCatalog c) storagePath) = Done dir ->
  Config.CDN c = "" ->
  ∃ url : string,
    GetObjectURL σ r storagePath fileName = Done (url, None)
    ∧ fileURLs c [types.Build_Object (Some (dir +:+ fileName))] = Done [url].
Proof.
  intros Hname Hcfg Hdir Hcdn. eexists. split.
  - rewrite (GetObjectURL_resolved σ r _ _ c dir Hname Hcfg Hdir).
    destruct (decide (Config.CDN c = "")); [reflexivity|contradiction].
  - now rewrite fileURLs_raw.
Qed.

Lemma object_url_matches_listing_without_cdn_witness :
  ∃ url : string,
    GetObjectURL {[1%positive := exampleConfig]}
      (AddCatalog exampleManager "product" "products/%d/")
      (StoragePath.mk "" "product" 42 "") "cert.pdf" = Done (url, None)
    ∧ fileURLs exampleConfig
        [types.Build_Object (Some ("/svc/products/42/" +:+ "cert.pdf"))]
      = Done [url].
Proof.
  apply (object_url_matches_listing_without_cdn
           {[1%positive := exampleConfig]}
           (AddCatalog exampleManager "product" "products/%d/")
           (StoragePath.mk "" "product" 42 "") "cert.pdf"
           exampleConfig "/svc/products/42/");
    [discriminate|reflexivity|reflexivity|reflexivity].
Defined.

(** X20: Test mode does not reach GetFiles: the prefix is passed to the listing
    as the caller gave it and the URLs are built from the endpoint and the
    bucket name, so a run of GetFiles after a test-mode construction on the
    manager's Config is the run it was before. *)
Theorem GetFiles_unaffected_by_test_mode (h h' : handler) (σ σ' : heap)
    (l : loc) (c : Config.t) (tr tr' tr0 : list call)
    (res : option s3Manager * option error) (r : s3Manager) (prefix : string) :
  σ !! l = Some c ->
  run h (NewS3Manager σ l true) tr = (Done (σ', res), tr') ->
  cfg r = l ->
  run h' (GetFiles σ' r prefix) tr0 = run h' (GetFiles σ r prefix) tr0.
Proof.
  intros Hl Hrun Hr.
  destruct (run_NewS3Manager h σ l c true tr Hl) as (res0 & tr1 & Heq).
  rewrite Heq in Hrun. injection Hrun as <- _ _.
  assert ((<[l := Config.appendRootCatalog "test/" c]> σ) !! cfg r
          = Some (Config.appendRootCatalog "test/" c)) as Hcfg'
    by (rewrite Hr; apply lookup_insert_eq).
  assert (σ !! cfg r = Some c) as Hcfg by (now rewrite Hr).
  unfold GetFiles. rewrite (deref_Some _ _ _ Hcfg'), (deref_Some _ _ _ Hcfg).
  cbn [lift Config.appendRootCatalog Config.Name]. rewrite !run_Vis.
  destruct (h' tr0 _) as [err|output]; [reflexivity|].
  now rewrite !fileURLs_raw.
Qed.

Lemma GetFiles_unaffected_by_test_mode_witness :
  run (bucketSdk ["/svc/a.txt"; "/svc/test/b.txt"])
    (GetFiles (<[1%positive := Config.appendRootCatalog "test/" exampleConfig]>
                 {[1%positive := exampleConfig]}) exampleManager "/svc/") []
  = run (bucketSdk ["/svc/a.txt"; "/svc/test/b.txt"])
      (GetFiles {[1%positive := exampleConfig]} exampleManager "/svc/") [].
Proof.
  eapply (GetFiles_unaffected_by_test_mode (obligingSdk [])
            (bucketSdk ["/svc/a.txt"; "/svc/test/b.txt"])
            {[1%positive := exampleConfig]} _ 1 exampleConfig [] _ []
            (Some exampleManager, None) exampleManager "/svc/");
    reflexivity.
Defined.
